(** * ECG processing pipeline (ecg_processing.py, config.py)

    A shallow embedding of the signal-processing core of the repository:
    [butter_bandpass_filter], [detect_r_peaks], [calculate_rr_intervals],
    [calculate_hrv_metrics] and [process_ecg_data], together with the
    configuration constants of config.py.

    Numbers are modelled as the code has them: Python floats and NumPy
    float64 values are IEEE binary64 ([PrimFloat.float]), Python integers
    are [Z], NumPy index arrays are lists of [Z] in the int64 range, the
    metrics dictionary is a [gmap string float].  Every [print] of the module
    is kept as an entry of a diagnostics trace, and the exceptions Python
    can raise in the arithmetic are explicit outcomes. *)

From Stdlib Require Import ZArith List Floats Lia Bool.
From stdpp Require Import base option list gmap strings sorting.

Local Open Scope Z_scope.

(** ** Python values and arithmetic *)

Module Py.

(** Exceptions that the arithmetic of the module can raise. *)
Inductive exn : Type :=
| ZeroDivisionError
| OverflowError
| ValueError.

(** [float(z)] for a Python int: rounded to nearest-even; a magnitude
    beyond the binary64 range raises OverflowError. *)
Definition Z2F (z : Z) : float := SF2Prim (binary_normalize prec emax z 0 false).

Definition int_fits_float (z : Z) : bool :=
  negb (PrimFloat.is_infinity (Z2F z)).

(** [int(f)] truncates towards zero. *)
Definition trunc (f : float) : Z :=
  match Prim2SF f with
  | S754_finite s m e =>
      let a := if (0 <=? e)%Z then Z.pos m * 2 ^ e else Z.pos m / 2 ^ (- e) in
      if s then - a else a
  | _ => 0
  end.

(** int64 wrap-around of NumPy integer arithmetic. *)
Definition wrap64 (z : Z) : Z := (z + 2 ^ 63) mod 2 ^ 64 - 2 ^ 63.

Definition int64_max : Z := 2 ^ 63 - 1.

End Py.

Import Py.

(** ** Diagnostics: one constructor per [print] of ecg_processing.py,
    carrying the values the message is formatted from. *)

Inductive message : Type :=
| WarnInvalidCriticalFrequencies (lowcut low highcut high : float)
| WarnDataTooShortForFilter (len order : Z)
| ErrApplyingFilter
| NoSignalForPeakDetection
| WarnFlatSignal
| ErrInvalidRateForPeakDistance (rate : Z)
| WarnMinDistanceNotPositive
| ErrInvalidRateForRR (rate : Z)
| InfoProcessing (source : string)
| ErrNoRawSignal
| InfoDataLength (len : Z)
| InfoSamplingRate (rate : Z)
| WarnDataVeryShort (len rate : Z)
| ErrTooShortAborting
| InfoFiltering
| InfoDetecting
| WarnFewPeaks (n : Z)
| InfoConsiderAdjusting
| InfoDetected (n : Z)
| InfoCalculatedRR (n : Z)
| InfoMetrics (m : gmap string float)
| InfoComplete.

(** ** Computations that print and may raise *)

Inductive outcome (A : Type) : Type :=
| Return (a : A)
| Raise (e : exn).
Arguments Return {A} a.
Arguments Raise {A} e.

Definition M (A : Type) : Type := list message * outcome A.

Definition ret {A} (a : A) : M A := ([], Return a).
Definition raise {A} (e : exn) : M A := ([], Raise e).
Definition print (m : message) : M unit := ([m], Return tt).

Definition bind {A B} (c : M A) (k : A -> M B) : M B :=
  match c with
  | (log, Return a) => let '(log', r) := k a in (log ++ log', r)
  | (log, Raise e) => (log, Raise e)
  end.

Definition trace {A} (c : M A) : list message := fst c.
Definition result {A} (c : M A) : outcome A := snd c.

#[global] Instance M_ret : MRet M := @ret.
#[global] Instance M_bind : MBind M := fun A B k c => bind c k.

(** Python float operations that can raise. *)

Definition float_of_int (z : Z) : M float :=
  if int_fits_float z then ret (Z2F z) else raise OverflowError.

Definition py_truediv (a b : float) : M float :=
  if (b =? 0)%float then raise ZeroDivisionError else ret (a / b)%float.

Definition py_int (f : float) : M Z :=
  if PrimFloat.is_nan f then raise ValueError
  else if PrimFloat.is_infinity f then raise OverflowError
  else ret (trunc f).

(** ** config.py *)

Record config : Type := {
  SAMPLING_RATE_HZ : Z;
  FILTER_LOWCUT_HZ : float;
  FILTER_HIGHCUT_HZ : float;
  FILTER_ORDER : Z;
  PEAK_HEIGHT_THRESHOLD_MULTIPLIER : float;
  MAX_HR_BPM_FOR_PEAK_DISTANCE : Z
}.

Definition default_config : config := {|
  SAMPLING_RATE_HZ := 250;
  FILTER_LOWCUT_HZ := 0.5;
  FILTER_HIGHCUT_HZ := 40;
  FILTER_ORDER := 3;
  PEAK_HEIGHT_THRESHOLD_MULTIPLIER := 0x1.6666666666666p-1; (* 0.7 *)
  MAX_HR_BPM_FOR_PEAK_DISTANCE := 220
|}.

(** ** The numeric libraries

    Two services of NumPy and SciPy are kept abstract, because their results
    depend on the library build and not on this repository: the order in
    which [np.add.reduce] accumulates a float array (every sum, mean and
    standard deviation goes through it), and the design and forward-backward
    application of the Butterworth filter ([butter] followed by [filtfilt]),
    which yields [None] when SciPy raises ValueError. *)

Class SciLib : Type := {
  np_sum : list float -> float;
  butter_filtfilt : Z -> float -> float -> list float -> option (list float)
}.

Definition len {A} (a : list A) : Z := Z.of_nat (length a).

Module Np.
Section Reductions.
Context `{SciLib}.

(** [np.mean(a)]: the reduced sum divided by the element count. *)
Definition mean (a : list float) : float := (np_sum a / Z2F (len a))%float.

(** [np.std(a)] with ddof = 0: deviations from the mean, squared by
    multiplication, averaged, then the square root. *)
Definition std (a : list float) : float :=
  let m := mean a in
  let x := map (fun v => v - m)%float a in
  PrimFloat.sqrt (np_sum (map (fun v => v * v)%float x) / Z2F (len a))%float.

Fixpoint insert_sorted (v : float) (s : list float) : list float :=
  match s with
  | [] => [v]
  | w :: s' => if (v <=? w)%float then v :: s else w :: insert_sorted v s'
  end.

Definition sort (a : list float) : list float := fold_right insert_sorted [] a.

(** [np.median(a)]: NaN if the array holds one, else the mean of the middle
    element (odd length) or of the two middle elements (even length). *)
Definition median (a : list float) : float :=
  if existsb PrimFloat.is_nan a then nan
  else
    let s := sort a in
    let n := length a in
    if Nat.even n
    then mean [nth (n / 2 - 1)%nat s 0%float; nth (n / 2)%nat s 0%float]
    else mean [nth (n / 2)%nat s 0%float].

End Reductions.

(** [np.max] and [np.min] propagate NaN. *)
Definition maximum (a b : float) : float :=
  if PrimFloat.is_nan a then a
  else if PrimFloat.is_nan b then b
  else if (a <? b)%float then b else a.

Definition minimum (a b : float) : float :=
  if PrimFloat.is_nan a then a
  else if PrimFloat.is_nan b then b
  else if (b <? a)%float then b else a.

Definition amax (a : list float) : float :=
  match a with
  | [] => nan
  | v :: a' => fold_left maximum a' v
  end.

Definition amin (a : list float) : float :=
  match a with
  | [] => nan
  | v :: a' => fold_left minimum a' v
  end.

(** [np.diff]: successive differences [a[i+1] - a[i]]. *)
Fixpoint diff {A} (sub : A -> A -> A) (a : list A) : list A :=
  match a with
  | x :: (y :: _) as t => sub y x :: diff sub t
  | _ => []
  end.

(** Boolean-mask indexing [a[keep]]. *)
Fixpoint mask {A} (a : list A) (keep : list bool) : list A :=
  match a, keep with
  | x :: a', b :: keep' => if b then x :: mask a' keep' else mask a' keep'
  | _, _ => []
  end.

End Np.

(** ** scipy.signal.find_peaks

    The peak finder as SciPy documents and implements it for the arguments
    the repository passes ([height] and [distance]): local maxima with flat
    tops reported at their middle sample, the height condition, then the
    distance condition, which visits the peaks from the highest to the lowest
    and drops every not yet dropped neighbour closer than [distance]. *)

Module Scipy.

Definition at_ (x : list float) (i : nat) : float := nth i x 0%float.

(** Inner loop of [_local_maxima_1d]: advance to the next sample that
    differs from [x[i]]. *)
Fixpoint plateau_end (x : list float) (xi : float) (i_ahead i_max fuel : nat) : nat :=
  match fuel with
  | O => i_ahead
  | S fuel' =>
      if (i_ahead <? i_max)%nat && (at_ x i_ahead =? xi)%float
      then plateau_end x xi (S i_ahead) i_max fuel'
      else i_ahead
  end.

(** Outer loop of [_local_maxima_1d], from sample [i] up to [i_max]. *)
Fixpoint local_maxima_from (x : list float) (i i_max fuel : nat) : list nat :=
  match fuel with
  | O => []
  | S fuel' =>
      if (i <? i_max)%nat then
        if (at_ x (i - 1) <? at_ x i)%float then
          let i_ahead := plateau_end x (at_ x i) (i + 1) i_max (i_max - i) in
          if (at_ x i_ahead <? at_ x i)%float
          then ((i + (i_ahead - 1)) / 2)%nat :: local_maxima_from x (i_ahead + 1) i_max fuel'
          else local_maxima_from x (i + 1) i_max fuel'
        else local_maxima_from x (i + 1) i_max fuel'
      else []
  end.

Definition local_maxima_1d (x : list float) : list nat :=
  local_maxima_from x 1 (length x - 1) (length x).

(** [np.argsort(priority)]: positions ordered by increasing priority. *)
Fixpoint insert_by (priority : list float) (i : nat) (sorted : list nat) : list nat :=
  match sorted with
  | [] => [i]
  | j :: rest =>
      if (at_ priority i <? at_ priority j)%float
      then i :: sorted
      else j :: insert_by priority i rest
  end.

Definition argsort (priority : list float) : list nat :=
  fold_left (fun acc i => insert_by priority i acc) (seq 0 (length priority)) [].

(** The two neighbour scans of [_select_by_peak_distance] around peak [j]
    at sample [pj]: positions [k-1 .. 0], then positions [k ..]. *)
Fixpoint flag_earlier (peaks : list nat) (pj : nat) (distance : Z)
         (k : nat) (keep : list bool) : list bool :=
  match k with
  | O => keep
  | S k' =>
      if Z.of_nat pj - Z.of_nat (nth k' peaks O) <? distance
      then flag_earlier peaks pj distance k' (<[k' := false]> keep)
      else keep
  end.

Fixpoint flag_later (peaks : list nat) (pj : nat) (distance : Z)
         (k fuel : nat) (keep : list bool) : list bool :=
  match fuel with
  | O => keep
  | S fuel' =>
      if (k <? length peaks)%nat && (Z.of_nat (nth k peaks O) - Z.of_nat pj <? distance)
      then flag_later peaks pj distance (S k) fuel' (<[k := false]> keep)
      else keep
  end.

Definition visit_peak (peaks : list nat) (distance : Z) (keep : list bool) (j : nat)
  : list bool :=
  if nth j keep false then
    let pj := nth j peaks O in
    flag_later peaks pj distance (S j) (length peaks)
      (flag_earlier peaks pj distance j keep)
  else keep.

(** The distance condition for a given visiting order of the positions. *)
Definition select_by_peak_distance_in (order : list nat) (peaks : list nat)
           (distance : Z) : list bool :=
  fold_left (visit_peak peaks distance) order (repeat true (length peaks)).

(** Highest priority first: the argsort is walked backwards. *)
Definition select_by_peak_distance (peaks : list nat) (priority : list float)
           (distance : Z) : list bool :=
  select_by_peak_distance_in (rev (argsort priority)) peaks distance.

Definition find_peaks (x : list float) (height : float) (distance : Z) : M (list Z) :=
  if distance <? 1 then raise ValueError
  else
    let peaks := local_maxima_1d x in
    let peaks := List.filter (fun p => (height <=? at_ x p)%float) peaks in
    let keep := select_by_peak_distance peaks (map (at_ x) peaks) distance in
    ret (map Z.of_nat (Np.mask peaks keep)).

End Scipy.

(** ** ecg_processing.py *)

Section Pipeline.
Context `{SciLib}.
Variable cfg : config.

(** The head of [butter_bandpass_filter]: [nyquist = 0.5 * fs] and the
    two normalized corners [lowcut / nyquist] and [highcut / nyquist]. *)
Definition normalized_corners : M (float * float) :=
  fs ← float_of_int (SAMPLING_RATE_HZ cfg);
  let nyquist := (0.5 * fs)%float in
  low ← py_truediv (FILTER_LOWCUT_HZ cfg) nyquist;
  high ← py_truediv (FILTER_HIGHCUT_HZ cfg) nyquist;
  mret (low, high).

Definition butter_bandpass_filter (data : list float) : M (list float) :=
  let lowcut := FILTER_LOWCUT_HZ cfg in
  let highcut := FILTER_HIGHCUT_HZ cfg in
  let order := FILTER_ORDER cfg in
  '(low, high) ← normalized_corners;
  if (low <=? 0)%float || (1 <=? high)%float || (high <=? low)%float then
    print (WarnInvalidCriticalFrequencies lowcut low highcut high);;
    mret data
  else if len data <? order * 3 then
    print (WarnDataTooShortForFilter (len data) order);;
    mret data
  else
    match butter_filtfilt order low high data with
    | Some y => mret y
    | None => print ErrApplyingFilter;; mret data
    end.

(** [int(SAMPLING_RATE_HZ * (60.0 / MAX_HR_BPM_FOR_PEAK_DISTANCE))], then the
    two clamping assignments, for a signal of [n] samples. *)
Definition min_distance_samples (n : Z) : M Z :=
  hr ← float_of_int (MAX_HR_BPM_FOR_PEAK_DISTANCE cfg);
  q ← py_truediv 60 hr;
  fs ← float_of_int (SAMPLING_RATE_HZ cfg);
  d ← py_int (fs * q)%float;
  let d := Z.max 1 d in
  mret (Z.min d (n - 1)).

Definition detect_r_peaks (filtered_ecg_signal : option (list float)) : M (list Z) :=
  match filtered_ecg_signal with
  | None => print NoSignalForPeakDetection;; mret []
  | Some x =>
      if len x =? 0 then print NoSignalForPeakDetection;; mret []
      else
        let median_val := Np.median x in
        let std_dev := Np.std x in
        let peak_height_threshold :=
          (median_val + PEAK_HEIGHT_THRESHOLD_MULTIPLIER cfg * std_dev)%float in
        if (Np.amax x - Np.amin x <? 0x1.0c6f7a0b5ed8dp-20)%float (* 1e-6 *) then
          print WarnFlatSignal;; mret []
        else if SAMPLING_RATE_HZ cfg <=? 0 then
          print (ErrInvalidRateForPeakDistance (SAMPLING_RATE_HZ cfg));; mret []
        else
          d ← min_distance_samples (len x);
          if d <=? 0 then print WarnMinDistanceNotPositive;; mret []
          else Scipy.find_peaks x peak_height_threshold d
  end.

(** [rr_intervals_samples / SAMPLING_RATE_HZ] divides an int64 array by a
    Python int: NumPy takes the scalar at the array's type, which a rate
    beyond int64 does not fit. *)
Definition calculate_rr_intervals (r_peaks_indices : option (list Z)) : M (list float) :=
  match r_peaks_indices with
  | None => mret []
  | Some peaks =>
      if len peaks <? 2 then mret []
      else
        let rr_intervals_samples := Np.diff (fun b a => wrap64 (b - a)) peaks in
        if SAMPLING_RATE_HZ cfg <=? 0 then
          print (ErrInvalidRateForRR (SAMPLING_RATE_HZ cfg));; mret []
        else if int64_max <? SAMPLING_RATE_HZ cfg then raise OverflowError
        else
          mret (map (fun d => (Z2F d / Z2F (SAMPLING_RATE_HZ cfg) * 1000)%float)
                    rr_intervals_samples)
  end.

(** [np.sum(np.abs(diff_rr) > 50)]. *)
Definition count_nn50 (diff_rr : list float) : Z :=
  len (List.filter (fun d => (50 <? PrimFloat.abs d)%float) diff_rr).

Definition calculate_hrv_metrics (rr_intervals_ms : option (list float))
  : gmap string float :=
  let metrics : gmap string float := ∅ in
  match rr_intervals_ms with
  | Some rr =>
      if len rr <? 2 then
        let metrics := <["Mean_RR_ms" := nan]> metrics in
        let metrics := <["SDNN_ms" := nan]> metrics in
        let metrics := <["RMSSD_ms" := nan]> metrics in
        let metrics := <["pNN50_percent" := nan]> metrics in
        <["Mean_Heart_Rate_BPM" := nan]> metrics
      else
        let metrics := <["Mean_RR_ms" := Np.mean rr]> metrics in
        let metrics := <["SDNN_ms" := Np.std rr]> metrics in
        let metrics :=
          if 2 <=? len rr then
            let diff_rr := Np.diff PrimFloat.sub rr in
            let metrics :=
              <["RMSSD_ms" :=
                  PrimFloat.sqrt (Np.mean (map (fun d => d * d)%float diff_rr))]> metrics in
            let nn50 := count_nn50 diff_rr in
            <["pNN50_percent" :=
                if 0 <? len diff_rr
                then (Z2F nn50 / Z2F (len diff_rr) * 100)%float
                else 0%float]> metrics
          else
            let metrics := <["RMSSD_ms" := nan]> metrics in
            <["pNN50_percent" := nan]> metrics in
        let mean_rr := default nan (metrics !! "Mean_RR_ms") in
        if (0 <? mean_rr)%float
        then <["Mean_Heart_Rate_BPM" := (60000 / mean_rr)%float]> metrics
        else <["Mean_Heart_Rate_BPM" := nan]> metrics
  | None =>
      let metrics := <["Mean_RR_ms" := nan]> metrics in
      let metrics := <["SDNN_ms" := nan]> metrics in
      let metrics := <["RMSSD_ms" := nan]> metrics in
      let metrics := <["pNN50_percent" := nan]> metrics in
      <["Mean_Heart_Rate_BPM" := nan]> metrics
  end.

(** The four-tuple [process_ecg_data] returns. *)
Record pipeline_output : Type := {
  filtered_ecg : option (list float);
  r_peaks : option (list Z);
  rr_intervals : option (list float);
  hrv_metrics : gmap string float
}.

(** [return None, None, None, {}] *)
Definition aborted : pipeline_output :=
  {| filtered_ecg := None; r_peaks := None; rr_intervals := None; hrv_metrics := ∅ |}.

(** Steps 1 to 4 of [process_ecg_data], after the length guards. *)
Definition run_stages (raw_ecg_signal : list float) : M pipeline_output :=
  print InfoFiltering;;
  filtered ← butter_bandpass_filter raw_ecg_signal;
  print InfoDetecting;;
  peaks ← detect_r_peaks (Some filtered);
  '(rr, metrics) ←
    (if len peaks <? 2 then
       print (WarnFewPeaks (len peaks));;
       print InfoConsiderAdjusting;;
       let rr := [] in
       mret (rr, calculate_hrv_metrics (Some rr))
     else
       print (InfoDetected (len peaks));;
       rr ← calculate_rr_intervals (Some peaks);
       print (InfoCalculatedRR (len rr));;
       let metrics := calculate_hrv_metrics (Some rr) in
       print (InfoMetrics metrics);;
       mret (rr, metrics));
  print InfoComplete;;
  mret {| filtered_ecg := Some filtered; r_peaks := Some peaks;
          rr_intervals := Some rr; hrv_metrics := metrics |}.

Definition process_ecg_data (timestamps raw_ecg_signal : option (list float))
           (source_identifier : string) (duration_minutes : float)
  : M pipeline_output :=
  print (InfoProcessing source_identifier);;
  match raw_ecg_signal with
  | None => print ErrNoRawSignal;; mret aborted
  | Some raw =>
      if len raw =? 0 then print ErrNoRawSignal;; mret aborted
      else
        print (InfoDataLength (len raw));;
        print (InfoSamplingRate (SAMPLING_RATE_HZ cfg));;
        if len raw <? SAMPLING_RATE_HZ cfg * 2 then
          print (WarnDataVeryShort (len raw) (SAMPLING_RATE_HZ cfg));;
          if len raw <? FILTER_ORDER cfg * 3 then
            print ErrTooShortAborting;; mret aborted
          else run_stages raw
        else run_stages raw
  end.

End Pipeline.

Arguments pipeline_output : clear implicits.

(** ** A concrete numeric library for worked examples

    For arrays of fewer than eight elements NumPy's reduction adds the
    elements from left to right, starting from the first one.  The examples
    below stay under that size and never reach the Butterworth filter, which
    this instance reports as rejected. *)

Definition sequential_sum (a : list float) : float :=
  match a with
  | [] => 0%float
  | v :: a' => fold_left PrimFloat.add a' v
  end.

Definition small_arrays : SciLib :=
  {| np_sum := sequential_sum; butter_filtfilt := fun _ _ _ _ => None |}.

(** ** Properties named by the specification *)

(** A sample index: a position NumPy can hold in an int64 index array. *)
Definition sample_index (p : Z) : Prop := 0 <= p <= int64_max.

(** Consecutive entries are at least [d] apart. *)
Fixpoint min_spacing (d : Z) (p : list Z) : Prop :=
  match p with
  | a :: (b :: _) as t => d <= b - a /\ min_spacing d t
  | _ => True
  end.

Definition strictly_ascending (p : list Z) : Prop := min_spacing 1 p.

(** The five keys of the metrics dictionary. *)
Definition metric_keys : gset string :=
  {[ "Mean_RR_ms"; "SDNN_ms"; "RMSSD_ms"; "pNN50_percent"; "Mean_Heart_Rate_BPM" ]}.

(** All five metrics hold the undefined sentinel (NaN). *)
Definition all_undefined (m : gmap string float) : Prop :=
  m !! "Mean_RR_ms" = Some nan /\
  m !! "SDNN_ms" = Some nan /\
  m !! "RMSSD_ms" = Some nan /\
  m !! "pNN50_percent" = Some nan /\
  m !! "Mean_Heart_Rate_BPM" = Some nan.

(** Messages that announce a processing stage. *)
Definition announces_stage (m : message) : bool :=
  match m with
  | InfoFiltering | InfoDetecting | InfoDetected _ | InfoCalculatedRR _
  | InfoMetrics _ | InfoComplete => true
  | _ => false
  end.

(** ** Configurations used in the worked examples *)

(** The crossed specification of Example C. *)
Definition crossed_config : config := {|
  SAMPLING_RATE_HZ := 250;
  FILTER_LOWCUT_HZ := 40;
  FILTER_HIGHCUT_HZ := 0.5;
  FILTER_ORDER := 3;
  PEAK_HEIGHT_THRESHOLD_MULTIPLIER := 0x1.6666666666666p-1;
  MAX_HR_BPM_FOR_PEAK_DISTANCE := 220
|}.

(** The shipped configuration at a sampling rate of 2 Hz. *)
Definition slow_config : config := {|
  SAMPLING_RATE_HZ := 2;
  FILTER_LOWCUT_HZ := 0.5;
  FILTER_HIGHCUT_HZ := 40;
  FILTER_ORDER := 3;
  PEAK_HEIGHT_THRESHOLD_MULTIPLIER := 0x1.6666666666666p-1;
  MAX_HR_BPM_FOR_PEAK_DISTANCE := 220
|}.

(** The shipped configuration with the sampling rate negated. *)
Definition negative_rate_config : config := {|
  SAMPLING_RATE_HZ := -250;
  FILTER_LOWCUT_HZ := 0.5;
  FILTER_HIGHCUT_HZ := 40;
  FILTER_ORDER := 3;
  PEAK_HEIGHT_THRESHOLD_MULTIPLIER := 0x1.6666666666666p-1;
  MAX_HR_BPM_FOR_PEAK_DISTANCE := 220
|}.

(** The shipped configuration at 8 Hz with a ceiling of 180 bpm:
    [8 * 60 / 180 = 2.67], truncated to 2 and rounded to 3. *)
Definition coarse_config : config := {|
  SAMPLING_RATE_HZ := 8;
  FILTER_LOWCUT_HZ := 0.5;
  FILTER_HIGHCUT_HZ := 40;
  FILTER_ORDER := 3;
  PEAK_HEIGHT_THRESHOLD_MULTIPLIER := 0x1.6666666666666p-1;
  MAX_HR_BPM_FOR_PEAK_DISTANCE := 180
|}.

(** ** Notions used in the statements *)

(** The buffers on which the orchestrator gives up: absent, empty, or
    shorter than both sampling_rate_hz * 2 and filter_order * 3. *)
Definition insufficient_data (cfg : config) (raw_ecg_signal : option (list float)) : Prop :=
  match raw_ecg_signal with
  | None => True
  | Some raw =>
      len raw = 0 \/
      (len raw < SAMPLING_RATE_HZ cfg * 2 /\ len raw < FILTER_ORDER cfg * 3)
  end.

(** The minimum distance as the specification words it: the rounded quotient
    [sampling_rate_hz * 60 / max_hr_bpm], clamped to [1 .. len - 1]. *)
Definition round_half_up (num den : Z) : Z := (2 * num + den) / (2 * den).

Definition spec_min_distance_samples (cfg : config) (n : Z) : Z :=
  Z.min (Z.max 1 (round_half_up (SAMPLING_RATE_HZ cfg * 60)
                                (MAX_HR_BPM_FOR_PEAK_DISTANCE cfg)))
        (n - 1).

(** Positions in a peak array never decrease from left to right. *)
Definition ascending_positions (peaks : list nat) : Prop :=
  forall a b, (a <= b < length peaks)%nat -> (nth a peaks O <= nth b peaks O)%nat.

(** Peak [j] is settled in [keep]: if it is kept, no other kept peak lies
    closer than [distance]. *)
Definition settled (peaks : list nat) (distance : Z) (keep : list bool) (j : nat) : Prop :=
  keep !! j = Some true ->
  forall i, i <> j -> (i < length peaks)%nat ->
    Z.abs (Z.of_nat (nth i peaks O) - Z.of_nat (nth j peaks O)) < distance ->
    keep !! i = Some false.

(** ** Further notions and example data *)

(** The height threshold [detect_r_peaks] passes to the peak finder:
    [median + PEAK_HEIGHT_THRESHOLD_MULTIPLIER * std]. *)
Definition peak_height_threshold `{SciLib} (cfg : config) (x : list float) : float :=
  (Np.median x + PEAK_HEIGHT_THRESHOLD_MULTIPLIER cfg * Np.std x)%float.

(** A position strictly inside an array of [n] samples. *)
Definition interior_index (n : Z) (p : Z) : Prop := 1 <= p <= n - 2.

(** A complete result: all four fields present, the metrics under their
    five keys. *)
Definition complete_output (out : pipeline_output) : Prop :=
  exists filtered peaks rr,
    filtered_ecg out = Some filtered /\
    r_peaks out = Some peaks /\
    rr_intervals out = Some rr /\
    dom (hrv_metrics out) = metric_keys.

(** The shipped configuration with the sampling rate set to 0. *)
Definition zero_rate_config : config := {|
  SAMPLING_RATE_HZ := 0;
  FILTER_LOWCUT_HZ := 0.5;
  FILTER_HIGHCUT_HZ := 40;
  FILTER_ORDER := 3;
  PEAK_HEIGHT_THRESHOLD_MULTIPLIER := 0x1.6666666666666p-1;
  MAX_HR_BPM_FOR_PEAK_DISTANCE := 220
|}.


(** A recording of 128 samples, flat except for two unit spikes at samples
    10 and 100.  Its mean 2/128, its squared deviations and all their
    partial sums are exact in binary64, so the order in which a library
    accumulates them is immaterial. *)
Definition two_spikes : list float :=
  repeat 0%float 10 ++ [1%float] ++ repeat 0%float 89 ++ [1%float] ++ repeat 0%float 27.

(** The shipped configuration with the heart-rate ceiling set to 0. *)
Definition zero_ceiling_config : config := {|
  SAMPLING_RATE_HZ := 250;
  FILTER_LOWCUT_HZ := 0.5;
  FILTER_HIGHCUT_HZ := 40;
  FILTER_ORDER := 3;
  PEAK_HEIGHT_THRESHOLD_MULTIPLIER := 0x1.6666666666666p-1;
  MAX_HR_BPM_FOR_PEAK_DISTANCE := 0
|}.

(** ** Auxiliary facts *)

Ltac run :=
  unfold mbind, mret, M_bind, M_ret, bind, ret, raise, print, trace, result in *;
  cbn [fst snd app] in *.

(** Membership in a trace, spelled out entry by entry. *)
Ltac membership := repeat first [rewrite in_app_iff | progress cbn [In]].

Lemma len_nil {A} : len (@nil A) = 0.
Proof. reflexivity. Qed.

Lemma len_cons {A} (x : A) (a : list A) : len (x :: a) = len a + 1.
Proof. unfold len. cbn [length]. lia. Qed.

Lemma len_nonneg {A} (a : list A) : 0 <= len a.
Proof. unfold len. lia. Qed.

Lemma diff_cons2 {A} (sub : A -> A -> A) (x y : A) (t : list A) :
  Np.diff sub (x :: y :: t) = sub y x :: Np.diff sub (y :: t).
Proof. reflexivity. Qed.

Lemma diff_length {A} (sub : A -> A -> A) (a : list A) :
  length (Np.diff sub a) = (length a - 1)%nat.
Proof.
  induction a as [|x a IH]; [reflexivity|].
  destruct a as [|y t]; [reflexivity|].
  rewrite diff_cons2. cbn [length] in *. lia.
Qed.

Lemma diff_lookup {A} (sub : A -> A -> A) (a : list A) (i : nat) (u v : A) :
  a !! i = Some u -> a !! S i = Some v -> Np.diff sub a !! i = Some (sub v u).
Proof.
  revert i. induction a as [|x a IH]; intros i Hu Hv; [simplify_eq/=|].
  destruct a as [|y t]; [simplify_eq/=|].
  rewrite diff_cons2. destruct i as [|i].
  - simplify_eq/=. reflexivity.
  - cbn [lookup list_lookup] in *. apply IH; assumption.
Qed.

Lemma wrap64_small (z : Z) : - 2 ^ 63 <= z < 2 ^ 63 -> wrap64 z = z.
Proof.
  intros Hz. unfold wrap64.
  rewrite Z.mod_small; lia.
Qed.

Lemma diff_wrap_lookup (peaks : list Z) (i : nat) (a b : Z) :
  Forall sample_index peaks ->
  peaks !! i = Some a -> peaks !! S i = Some b ->
  Np.diff (fun y x => wrap64 (y - x)) peaks !! i = Some (b - a).
Proof.
  intros Hall Ha Hb.
  rewrite (diff_lookup _ _ _ _ _ Ha Hb). f_equal.
  assert (sample_index a) as Hsa
    by (eapply Forall_lookup_1 in Ha; [exact Ha | exact Hall]).
  assert (sample_index b) as Hsb
    by (eapply Forall_lookup_1 in Hb; [exact Hb | exact Hall]).
  unfold sample_index, int64_max in *.
  apply wrap64_small. lia.
Qed.

(** ** IntervalCalculator *)

(** C1. The RR series of a peak set with [n] sample indices has
    [max (n - 1) 0] entries, entry [i] being
    [(peak[i+1] - peak[i]) / sampling_rate_hz * 1000] in binary64, for a
    positive sampling rate that NumPy accepts; with fewer than two peaks the
    series is empty and nothing is raised, whatever the rate. *)
Theorem calculate_rr_intervals_spec (cfg : config) (peaks : list Z) :
  ((length peaks < 2)%nat ->
   calculate_rr_intervals cfg (Some peaks) = ([], Return [])) /\
  (0 < SAMPLING_RATE_HZ cfg <= int64_max ->
   Forall sample_index peaks ->
   exists rr : list float,
     calculate_rr_intervals cfg (Some peaks) = ([], Return rr) /\
     length rr = Nat.max (length peaks - 1) 0 /\
     forall (i : nat) (a b : Z),
       peaks !! i = Some a -> peaks !! S i = Some b ->
       rr !! i = Some (Z2F (b - a) / Z2F (SAMPLING_RATE_HZ cfg) * 1000)%float).
Proof.
  split.
  - intros Hn. unfold calculate_rr_intervals.
    replace (len peaks <? 2) with true
      by (symmetry; apply Z.ltb_lt; unfold len; lia).
    reflexivity.
  - intros [Hpos Hmax] Hidx. unfold calculate_rr_intervals.
    destruct (len peaks <? 2) eqn:Hlen.
    + exists []. apply Z.ltb_lt in Hlen. unfold len in Hlen.
      split; [reflexivity|]. split; [cbn; lia|].
      intros i a b Ha Hb. apply lookup_lt_Some in Hb. lia.
    + replace (SAMPLING_RATE_HZ cfg <=? 0) with false
        by (symmetry; apply Z.leb_gt; lia).
      replace (int64_max <? SAMPLING_RATE_HZ cfg) with false
        by (symmetry; apply Z.ltb_ge; lia).
      eexists. split; [reflexivity|]. split.
      * rewrite length_map, diff_length. lia.
      * intros i a b Ha Hb.
        rewrite list_lookup_fmap, (diff_wrap_lookup _ _ _ _ Hidx Ha Hb).
        reflexivity.
Qed.

Lemma calculate_rr_intervals_spec_witness :
  calculate_rr_intervals default_config (Some [5]) = ([], Return []) /\
  exists rr : list float,
    calculate_rr_intervals default_config (Some [100; 350; 600]) = ([], Return rr) /\
    length rr = 2%nat /\
    rr !! 1%nat = Some (Z2F (600 - 350) / Z2F 250 * 1000)%float.
Proof.
  split.
  - apply (calculate_rr_intervals_spec default_config [5]). cbn. lia.
  - destruct (proj2 (calculate_rr_intervals_spec default_config [100; 350; 600]))
      as (rr & Hrr & Hlen & Hval).
    + cbn. unfold int64_max. lia.
    + repeat constructor; unfold sample_index, int64_max; lia.
    + exists rr. split; [exact Hrr|]. split; [exact Hlen|].
      apply (Hval 1%nat 350 600); reflexivity.
Defined.

(** ** MetricsCalculator *)

Lemma nan_metrics_undefined :
  all_undefined
    (<["Mean_Heart_Rate_BPM" := nan]>
       (<["pNN50_percent" := nan]>
          (<["RMSSD_ms" := nan]>
             (<["SDNN_ms" := nan]> (<["Mean_RR_ms" := nan]> (∅ : gmap string float)))))).
Proof. repeat split; reflexivity. Qed.

Lemma short_series_metrics `{SciLib} (rr : list float) :
  (length rr < 2)%nat ->
  calculate_hrv_metrics (Some rr) =
    <["Mean_Heart_Rate_BPM" := nan]>
      (<["pNN50_percent" := nan]>
         (<["RMSSD_ms" := nan]>
            (<["SDNN_ms" := nan]> (<["Mean_RR_ms" := nan]> ∅)))).
Proof.
  intros Hn. unfold calculate_hrv_metrics.
  replace (len rr <? 2) with true
    by (symmetry; apply Z.ltb_lt; unfold len; lia).
  reflexivity.
Qed.

(** C2. An RR series with fewer than two elements yields the undefined
    sentinel for MeanRR, SDNN, RMSSD, pNN50 and MeanHR alike. *)
Theorem short_series_all_undefined `{SciLib} (rr : list float) :
  (length rr < 2)%nat ->
  all_undefined (calculate_hrv_metrics (Some rr)).
Proof.
  intros Hn. rewrite (short_series_metrics rr Hn).
  exact nan_metrics_undefined.
Qed.

Lemma short_series_all_undefined_witness :
  all_undefined (calculate_hrv_metrics (H := small_arrays) (Some [1000%float])).
Proof.
  apply (short_series_all_undefined (H := small_arrays) [1000%float]).
  cbn. lia.
Defined.

(** C10. Whatever the input (absent, empty or any series), the returned
    dictionary has exactly the five metric keys. *)
Theorem calculate_hrv_metrics_keys `{SciLib} (rr_intervals_ms : option (list float)) :
  dom (calculate_hrv_metrics rr_intervals_ms) = metric_keys.
Proof.
  unfold calculate_hrv_metrics, metric_keys.
  destruct rr_intervals_ms as [rr|].
  - destruct (len rr <? 2).
    + rewrite !dom_insert_L, dom_empty_L. set_solver.
    + destruct (2 <=? len rr).
      * cbv zeta.
        match goal with |- context [if ?c then _ else _] => destruct c end;
          rewrite !dom_insert_L, dom_empty_L; set_solver.
      * cbv zeta.
        match goal with |- context [if ?c then _ else _] => destruct c end;
          rewrite !dom_insert_L, dom_empty_L; set_solver.
  - rewrite !dom_insert_L, dom_empty_L. set_solver.
Qed.

Lemma nan_neq_zero : nan <> 0%float.
Proof.
  intros Heq.
  assert (PrimFloat.is_nan nan = PrimFloat.is_nan 0%float) as Hnan by (rewrite Heq; reflexivity).
  vm_compute in Hnan. discriminate.
Qed.

(** C9 as stated fails on a series without successive differences: the
    one-element series has none, and its pNN50 is the undefined sentinel,
    not 0. *)
Lemma pnn50_without_differences_is_undefined :
  Np.diff PrimFloat.sub [1000%float] = [] /\
  calculate_hrv_metrics (H := small_arrays) (Some [1000%float]) !! "pNN50_percent"
    = Some nan /\
  nan <> 0%float.
Proof.
  split; [reflexivity|]. split; [reflexivity|]. exact nan_neq_zero.
Qed.

(** C9, amended. With at least two RR values (so at least one successive
    difference [d[i]]) pNN50 is the count of [|d[i]| > 50] divided by
    [len(d)], times 100, in binary64; with fewer than two values no
    difference exists and pNN50 is the undefined sentinel. *)
Theorem pnn50_spec `{SciLib} (rr : list float) :
  ((2 <= length rr)%nat ->
   0 < len (Np.diff PrimFloat.sub rr) /\
   calculate_hrv_metrics (Some rr) !! "pNN50_percent" =
     Some (Z2F (count_nn50 (Np.diff PrimFloat.sub rr))
           / Z2F (len (Np.diff PrimFloat.sub rr)) * 100)%float) /\
  ((length rr < 2)%nat ->
   Np.diff PrimFloat.sub rr = [] /\
   calculate_hrv_metrics (Some rr) !! "pNN50_percent" = Some nan).
Proof.
  split.
  - intros Hn.
    assert (0 < len (Np.diff PrimFloat.sub rr)) as Hd
      by (unfold len; rewrite diff_length; lia).
    split; [exact Hd|].
    unfold calculate_hrv_metrics.
    replace (len rr <? 2) with false
      by (symmetry; apply Z.ltb_ge; unfold len; lia).
    replace (2 <=? len rr) with true
      by (symmetry; apply Z.leb_le; unfold len; lia).
    cbv zeta.
    replace (0 <? len (Np.diff PrimFloat.sub rr)) with true
      by (symmetry; apply Z.ltb_lt; exact Hd).
    match goal with |- context [if ?c then _ else _] => destruct c end;
      (rewrite lookup_insert_ne by discriminate);
      rewrite lookup_insert_eq; reflexivity.
  - intros Hn. split.
    + destruct rr as [|x [|y t]]; [reflexivity | reflexivity | cbn in Hn; lia].
    + rewrite (short_series_metrics rr Hn). reflexivity.
Qed.

Lemma pnn50_spec_witness :
  calculate_hrv_metrics (H := small_arrays) (Some [800; 900; 920]%float)
    !! "pNN50_percent" = Some 50%float /\
  calculate_hrv_metrics (H := small_arrays) (Some [800%float]) !! "pNN50_percent"
    = Some nan.
Proof.
  split.
  - destruct (proj1 (pnn50_spec (H := small_arrays) [800; 900; 920]%float))
      as [_ Hp]; [cbn; lia|].
    rewrite Hp. vm_compute. reflexivity.
  - apply (proj2 (pnn50_spec (H := small_arrays) [800%float])). cbn. lia.
Defined.

(** C7. Example A of the specification: peaks [100, 350, 600, 850] at
    250 Hz give RR = [1000, 1000, 1000] ms, and that series gives
    MeanRR = 1000, SDNN = 0, RMSSD = 0, pNN50 = 0, MeanHR = 60. *)
Theorem example_A_metrics :
  calculate_rr_intervals default_config (Some [100; 350; 600; 850])
    = ([], Return [1000; 1000; 1000]%float) /\
  let m := calculate_hrv_metrics (H := small_arrays) (Some [1000; 1000; 1000]%float) in
  m !! "Mean_RR_ms" = Some 1000%float /\
  m !! "SDNN_ms" = Some 0%float /\
  m !! "RMSSD_ms" = Some 0%float /\
  m !! "pNN50_percent" = Some 0%float /\
  m !! "Mean_Heart_Rate_BPM" = Some 60%float.
Proof. vm_compute. repeat split; reflexivity. Qed.

(** ** PeakDetector: the flat-signal guard *)

(** C8. A non-empty filtered signal whose range [max - min] is below 1e-6
    yields the empty peak set together with the flat-signal warning, and
    nothing is raised. *)
Theorem flat_signal_no_peaks `{SciLib} (cfg : config) (x : list float) :
  x <> [] ->
  (Np.amax x - Np.amin x <? 0x1.0c6f7a0b5ed8dp-20)%float = true ->
  detect_r_peaks cfg (Some x) = ([WarnFlatSignal], Return []).
Proof.
  intros Hne Hflat. unfold detect_r_peaks.
  replace (len x =? 0) with false.
  - rewrite Hflat. reflexivity.
  - symmetry. apply Z.eqb_neq. destruct x; [contradiction|]. rewrite len_cons.
    pose proof (len_nonneg x). lia.
Qed.

Lemma flat_signal_no_peaks_witness :
  detect_r_peaks (H := small_arrays) default_config (Some [2; 2; 2; 2]%float)
    = ([WarnFlatSignal], Return []).
Proof.
  apply (flat_signal_no_peaks (H := small_arrays) default_config [2; 2; 2; 2]%float).
  - discriminate.
  - vm_compute. reflexivity.
Defined.

(** ** SignalFilter: the pass-through guards *)

(** C5. Once the normalized corners [low] and [high] are computed, a
    violation of [0 < low < high < 1] (low <= 0, or high >= 1, or
    low >= high) or a buffer shorter than order * 3 makes the filter return
    its input unchanged, after exactly one warning. *)
Theorem filter_guards_pass_through `{SciLib} (cfg : config) (data : list float)
        (low high : float) :
  normalized_corners cfg = ([], Return (low, high)) ->
  ((low <=? 0)%float || (1 <=? high)%float || (high <=? low)%float = true \/
   len data < FILTER_ORDER cfg * 3) ->
  butter_bandpass_filter cfg data =
    ([WarnInvalidCriticalFrequencies (FILTER_LOWCUT_HZ cfg) low (FILTER_HIGHCUT_HZ cfg) high],
     Return data) \/
  butter_bandpass_filter cfg data =
    ([WarnDataTooShortForFilter (len data) (FILTER_ORDER cfg)], Return data).
Proof.
  intros Hc Hguard. unfold butter_bandpass_filter.
  rewrite Hc. run.
  destruct ((low <=? 0)%float || (1 <=? high)%float || (high <=? low)%float) eqn:Hinv.
  - left. reflexivity.
  - right. destruct Hguard as [Hbad | Hshort]; [discriminate|].
    apply Z.ltb_lt in Hshort. rewrite Hshort. reflexivity.
Qed.

Lemma filter_guards_pass_through_witness :
  let data := [0; 1; 0; 1; 0; 1; 0; 1; 0; 1; 0; 1]%float in
  result (butter_bandpass_filter (H := small_arrays) crossed_config data) = Return data /\
  length (trace (butter_bandpass_filter (H := small_arrays) crossed_config data)) = 1%nat.
Proof.
  intros data.
  destruct (filter_guards_pass_through (H := small_arrays) crossed_config data
              (40 / (0.5 * Z2F 250)) (0.5 / (0.5 * Z2F 250))) as [Hr | Hr].
  - vm_compute. reflexivity.
  - left. vm_compute. reflexivity.
  - rewrite Hr. split; reflexivity.
  - rewrite Hr. split; reflexivity.
Defined.

(** ** PipelineOrchestrator: the length guards *)

(** C4 as stated fails: at 2 Hz a buffer of 5 samples is shorter than
    filter_order * 3 = 9, yet not shorter than sampling_rate_hz * 2 = 4, so
    the abort test is never reached; every stage runs and a full result
    comes back. *)
Lemma short_buffer_at_low_rate_is_processed :
  let raw := [0; 1; 0; 1; 0]%float in
  let run := process_ecg_data (H := small_arrays) slow_config None (Some raw)
               "serial" 1%float in
  len raw < FILTER_ORDER slow_config * 3 /\
  existsb announces_stage (trace run) = true /\
  match result run with
  | Return out =>
      filtered_ecg out = Some raw /\
      r_peaks out = Some [1; 3] /\
      rr_intervals out = Some [1000%float]
  | Raise _ => False
  end.
Proof. vm_compute. repeat split; reflexivity. Qed.

(** C4, amended. A buffer that is absent or empty, or that has fewer than
    filter_order * 3 samples and also fewer than sampling_rate_hz * 2
    samples, makes the orchestrator return the abort tuple at once: no stage
    is announced or run, and nothing is raised. *)
Theorem process_aborts_on_insufficient_data `{SciLib} (cfg : config)
        (timestamps raw_ecg_signal : option (list float))
        (source_identifier : string) (duration_minutes : float) :
  insufficient_data cfg raw_ecg_signal ->
  let run := process_ecg_data cfg timestamps raw_ecg_signal
               source_identifier duration_minutes in
  result run = Return aborted /\
  existsb announces_stage (trace run) = false.
Proof.
  intros Hins. unfold process_ecg_data.
  destruct raw_ecg_signal as [raw|]; [|split; reflexivity].
  destruct (len raw =? 0) eqn:Hzero; [split; reflexivity|].
  destruct Hins as [Hz | [Hrate Horder]].
  - apply Z.eqb_neq in Hzero. contradiction.
  - apply Z.ltb_lt in Hrate, Horder.
    cbv zeta. rewrite Hrate, Horder. split; reflexivity.
Qed.

Lemma process_aborts_on_insufficient_data_witness :
  let run := process_ecg_data (H := small_arrays) default_config None
               (Some [0; 1; 0; 1; 0]%float) "serial" 1%float in
  result run = Return aborted /\
  existsb announces_stage (trace run) = false.
Proof.
  apply (process_aborts_on_insufficient_data (H := small_arrays) default_config None
           (Some [0; 1; 0; 1; 0]%float) "serial" 1%float).
  right. split; vm_compute; reflexivity.
Defined.

(** ** Non-positive sampling rate *)

(** C6 as stated fails: at -250 Hz the pipeline neither aborts nor raises;
    it runs its stages and returns a complete result whose peak set and RR
    series are empty and whose metrics are all undefined. *)
Lemma negative_rate_still_yields_result :
  let raw := [0; 1; 0; 1; 0]%float in
  let run := process_ecg_data (H := small_arrays) negative_rate_config None (Some raw)
               "serial" 1%float in
  SAMPLING_RATE_HZ negative_rate_config <= 0 /\
  existsb announces_stage (trace run) = true /\
  match result run with
  | Return out =>
      out <> aborted /\
      filtered_ecg out = Some raw /\
      r_peaks out = Some [] /\
      rr_intervals out = Some [] /\
      all_undefined (hrv_metrics out)
  | Raise _ => False
  end.
Proof.
  vm_compute. repeat split; try reflexivity; try discriminate.
Qed.

Lemma detect_r_peaks_nonpositive_rate `{SciLib} (cfg : config)
      (filtered_ecg_signal : option (list float)) :
  SAMPLING_RATE_HZ cfg <= 0 ->
  exists log, detect_r_peaks cfg filtered_ecg_signal = (log, Return []).
Proof.
  intros Hrate. unfold detect_r_peaks.
  destruct filtered_ecg_signal as [x|]; [|eexists; reflexivity].
  destruct (len x =? 0); [eexists; reflexivity|].
  cbv zeta.
  match goal with |- context [if ?c then _ else _] => destruct c end;
    [eexists; reflexivity|].
  apply Z.leb_le in Hrate. rewrite Hrate. eexists; reflexivity.
Qed.

Lemma calculate_rr_intervals_nonpositive_rate (cfg : config)
      (r_peaks_indices : option (list Z)) :
  SAMPLING_RATE_HZ cfg <= 0 ->
  exists log, calculate_rr_intervals cfg r_peaks_indices = (log, Return []).
Proof.
  intros Hrate. unfold calculate_rr_intervals.
  destruct r_peaks_indices as [peaks|]; [|eexists; reflexivity].
  destruct (len peaks <? 2); [eexists; reflexivity|].
  apply Z.leb_le in Hrate. cbv zeta. rewrite Hrate. eexists; reflexivity.
Qed.

Lemma butter_bandpass_filter_returns `{SciLib} (cfg : config) (data : list float)
      (low high : float) :
  normalized_corners cfg = ([], Return (low, high)) ->
  exists log filtered, butter_bandpass_filter cfg data = (log, Return filtered).
Proof.
  intros Hc. unfold butter_bandpass_filter. rewrite Hc. run.
  destruct ((low <=? 0)%float || (1 <=? high)%float || (high <=? low)%float);
    [do 2 eexists; reflexivity|].
  destruct (len data <? FILTER_ORDER cfg * 3); [do 2 eexists; reflexivity|].
  destruct (butter_filtfilt (FILTER_ORDER cfg) low high data);
    do 2 eexists; reflexivity.
Qed.

(** C6, amended. A non-positive sampling rate is absorbed by the stages:
    PeakDetector and IntervalCalculator each return an empty series without
    raising, and with a negative rate whose normalized corners can be
    computed the orchestrator returns the complete four-field result for
    every non-empty buffer, with an empty peak set, an empty RR series and
    all five metrics undefined. *)
Theorem nonpositive_rate_is_absorbed `{SciLib} (cfg : config) :
  SAMPLING_RATE_HZ cfg <= 0 ->
  (forall s, result (detect_r_peaks cfg s) = Return []) /\
  (forall p, result (calculate_rr_intervals cfg p) = Return []) /\
  (forall timestamps raw source_identifier duration_minutes low high,
     SAMPLING_RATE_HZ cfg < 0 ->
     raw <> [] ->
     normalized_corners cfg = ([], Return (low, high)) ->
     exists filtered metrics,
       result (process_ecg_data cfg timestamps (Some raw)
                 source_identifier duration_minutes)
       = Return {| filtered_ecg := Some filtered; r_peaks := Some [];
                   rr_intervals := Some []; hrv_metrics := metrics |} /\
       all_undefined metrics).
Proof.
  intros Hrate. split; [|split].
  - intros s. destruct (detect_r_peaks_nonpositive_rate cfg s Hrate) as [log ->].
    reflexivity.
  - intros p. destruct (calculate_rr_intervals_nonpositive_rate cfg p Hrate) as [log ->].
    reflexivity.
  - intros timestamps raw source_identifier duration_minutes low high Hneg Hne Hc.
    destruct (butter_bandpass_filter_returns cfg raw low high Hc)
      as (logf & filtered & Hf).
    destruct (detect_r_peaks_nonpositive_rate cfg (Some filtered) Hrate) as [logd Hd].
    exists filtered, (calculate_hrv_metrics (Some [])).
    split; [|rewrite (short_series_metrics []) by (cbn; lia); exact nan_metrics_undefined].
    unfold process_ecg_data.
    replace (len raw =? 0) with false.
    2:{ symmetry. apply Z.eqb_neq. destruct raw; [contradiction|].
        rewrite len_cons. pose proof (len_nonneg raw). lia. }
    replace (len raw <? SAMPLING_RATE_HZ cfg * 2) with false
      by (symmetry; apply Z.ltb_ge; pose proof (len_nonneg raw); lia).
    unfold run_stages. run. rewrite Hf. rewrite Hd.
    reflexivity.
Qed.

Lemma nonpositive_rate_is_absorbed_witness :
  result (detect_r_peaks (H := small_arrays) negative_rate_config
            (Some [0; 1; 0; 1; 0]%float)) = Return [] /\
  result (calculate_rr_intervals negative_rate_config (Some [100; 350; 600])) = Return [] /\
  exists filtered metrics,
    result (process_ecg_data (H := small_arrays) negative_rate_config None
              (Some [0; 1; 0; 1; 0]%float) "serial" 1%float)
    = Return {| filtered_ecg := Some filtered; r_peaks := Some [];
                rr_intervals := Some []; hrv_metrics := metrics |} /\
    all_undefined metrics.
Proof.
  destruct (nonpositive_rate_is_absorbed (H := small_arrays) negative_rate_config)
    as (Hd & Hr & Hp).
  - vm_compute. discriminate.
  - split; [apply Hd|]. split; [apply Hr|].
    apply (Hp None [0; 1; 0; 1; 0]%float "serial" 1%float
              (0.5 / (0.5 * Z2F (-250)))%float (40 / (0.5 * Z2F (-250)))%float).
    + vm_compute. reflexivity.
    + discriminate.
    + vm_compute. reflexivity.
Defined.

(** ** The peak finder: positions are ascending *)

Lemma plateau_end_ge (x : list float) (xi : float) (i_max fuel i_ahead : nat) :
  (i_ahead <= Scipy.plateau_end x xi i_ahead i_max fuel)%nat.
Proof.
  revert i_ahead. induction fuel as [|fuel IH]; intros i_ahead; cbn [Scipy.plateau_end]; [lia|].
  destruct ((i_ahead <? i_max)%nat && (Scipy.at_ x i_ahead =? xi)%float); [|lia].
  specialize (IH (S i_ahead)). lia.
Qed.

Lemma plateau_end_fuel (x : list float) (xi : float) (i_max f1 f2 i_ahead : nat) :
  (i_max - i_ahead <= f1)%nat -> (i_max - i_ahead <= f2)%nat ->
  Scipy.plateau_end x xi i_ahead i_max f1 = Scipy.plateau_end x xi i_ahead i_max f2.
Proof.
  revert f2 i_ahead. induction f1 as [|f1 IH]; intros f2 i_ahead H1 H2.
  - destruct f2 as [|f2]; [reflexivity|]. cbn [Scipy.plateau_end].
    replace (i_ahead <? i_max)%nat with false
      by (symmetry; apply Nat.ltb_ge; lia).
    reflexivity.
  - destruct f2 as [|f2]; cbn [Scipy.plateau_end].
    + replace (i_ahead <? i_max)%nat with false
        by (symmetry; apply Nat.ltb_ge; lia).
      reflexivity.
    + destruct ((i_ahead <? i_max)%nat && (Scipy.at_ x i_ahead =? xi)%float); [|reflexivity].
      apply IH; lia.
Qed.

Lemma local_maxima_from_sorted (x : list float) (i_max fuel i : nat) :
  Forall (fun p => (i <= p)%nat) (Scipy.local_maxima_from x i i_max fuel) /\
  StronglySorted lt (Scipy.local_maxima_from x i i_max fuel).
Proof.
  revert i. induction fuel as [|fuel IH]; intros i; cbn [Scipy.local_maxima_from].
  - split; constructor.
  - destruct (i <? i_max)%nat; [|split; constructor].
    assert (forall j, (i <= j)%nat ->
              Forall (fun p => (i <= p)%nat) (Scipy.local_maxima_from x j i_max fuel))
      as Hweak.
    { intros j Hj. destruct (IH j) as [Hlb _].
      eapply Forall_impl; [exact Hlb|]. intros p Hp. cbv beta in *. lia. }
    destruct (Scipy.at_ x (i - 1) <? Scipy.at_ x i)%float.
    2:{ split; [apply Hweak; lia | apply IH]. }
    cbv zeta.
    pose proof (plateau_end_ge x (Scipy.at_ x i) i_max (i_max - i) (i + 1)) as Hge.
    set (i_ahead := Scipy.plateau_end x (Scipy.at_ x i) (i + 1) i_max (i_max - i)) in *.
    destruct (Scipy.at_ x i_ahead <? Scipy.at_ x i)%float.
    2:{ split; [apply Hweak; lia | apply IH]. }
    assert (i <= (i + (i_ahead - 1)) / 2 /\ (i + (i_ahead - 1)) / 2 < i_ahead + 1)%nat
      as [Hlo Hhi].
    { pose proof (Nat.div_mod_eq (i + (i_ahead - 1)) 2) as Hdm.
      pose proof (Nat.mod_upper_bound (i + (i_ahead - 1)) 2) as Hmod.
      lia. }
    destruct (IH (i_ahead + 1)%nat) as [Hlb Hss].
    split.
    + constructor; [exact Hlo|]. apply Hweak; lia.
    + constructor; [exact Hss|].
      eapply Forall_impl; [exact Hlb|]. intros p Hp. cbv beta in *. lia.
Qed.

Lemma local_maxima_from_fuel (x : list float) (i_max f1 f2 i : nat) :
  (i_max - i <= f1)%nat -> (i_max - i <= f2)%nat ->
  Scipy.local_maxima_from x i i_max f1 = Scipy.local_maxima_from x i i_max f2.
Proof.
  revert f2 i. induction f1 as [|f1 IH]; intros f2 i H1 H2.
  - destruct f2 as [|f2]; [reflexivity|]. cbn [Scipy.local_maxima_from].
    replace (i <? i_max)%nat with false by (symmetry; apply Nat.ltb_ge; lia).
    reflexivity.
  - destruct f2 as [|f2]; cbn [Scipy.local_maxima_from].
    + replace (i <? i_max)%nat with false by (symmetry; apply Nat.ltb_ge; lia).
      reflexivity.
    + destruct (i <? i_max)%nat eqn:Hlt; [|reflexivity].
      apply Nat.ltb_lt in Hlt.
      destruct (Scipy.at_ x (i - 1) <? Scipy.at_ x i)%float; [|apply IH; lia].
      cbv zeta.
      pose proof (plateau_end_ge x (Scipy.at_ x i) i_max (i_max - i) (i + 1)) as Hge.
      destruct (Scipy.at_ x _ <? Scipy.at_ x i)%float; [|apply IH; lia].
      f_equal. apply IH; lia.
Qed.

Lemma local_maxima_1d_sorted (x : list float) :
  StronglySorted lt (Scipy.local_maxima_1d x).
Proof. apply local_maxima_from_sorted. Qed.

(** ** The distance condition *)

Lemma strongly_sorted_lookup_lt (l : list nat) (a b x y : nat) :
  StronglySorted lt l -> (a < b)%nat -> l !! a = Some x -> l !! b = Some y -> (x < y)%nat.
Proof.
  intros Hss. revert a b x y.
  induction Hss as [|z l Hss IH Hall]; intros a b x y Hab Ha Hb.
  - simplify_eq/=.
  - destruct b as [|b]; [lia|]. cbn in Hb. destruct a as [|a].
    + cbn in Ha. injection Ha as <-.
      rewrite Forall_forall in Hall. apply Hall.
      eapply list_elem_of_lookup_2. exact Hb.
    + cbn in Ha. apply (IH a b); [lia | assumption | assumption].
Qed.

Lemma strongly_sorted_ascending (peaks : list nat) :
  StronglySorted lt peaks -> ascending_positions peaks.
Proof.
  intros Hss a b [Hab Hb].
  destruct (decide (a = b)) as [->|Hne]; [lia|].
  destruct (lookup_lt_is_Some_2 peaks a ltac:(lia)) as [x Hx].
  destruct (lookup_lt_is_Some_2 peaks b Hb) as [y Hy].
  rewrite (nth_lookup_Some _ _ O _ Hx), (nth_lookup_Some _ _ O _ Hy).
  pose proof (strongly_sorted_lookup_lt peaks a b x y Hss ltac:(lia) Hx Hy). lia.
Qed.

Lemma insert_false_lookup_true (keep : list bool) (k i : nat) :
  <[k := false]> keep !! i = Some true -> keep !! i = Some true.
Proof.
  rewrite list_lookup_insert_Some. intros [(_ & Hf & _) | (_ & Hi)];
    [discriminate | exact Hi].
Qed.

Section DistanceCondition.
Variable peaks : list nat.
Variable distance : Z.

Lemma flag_earlier_length (pj k : nat) (keep : list bool) :
  length (Scipy.flag_earlier peaks pj distance k keep) = length keep.
Proof.
  revert keep. induction k as [|k IH]; intros keep; cbn [Scipy.flag_earlier];
    [reflexivity|].
  destruct (_ <? distance); [|reflexivity].
  rewrite IH. apply length_insert.
Qed.

Lemma flag_earlier_keeps (pj k : nat) (keep : list bool) (i : nat) :
  Scipy.flag_earlier peaks pj distance k keep !! i = Some true ->
  keep !! i = Some true.
Proof.
  revert keep. induction k as [|k IH]; intros keep; cbn [Scipy.flag_earlier];
    [trivial|].
  destruct (_ <? distance); [|trivial].
  intros Hi. apply IH in Hi. eapply insert_false_lookup_true. exact Hi.
Qed.

Lemma flag_earlier_above (pj k : nat) (keep : list bool) (i : nat) :
  (k <= i)%nat ->
  Scipy.flag_earlier peaks pj distance k keep !! i = keep !! i.
Proof.
  revert keep. induction k as [|k IH]; intros keep Hki; cbn [Scipy.flag_earlier];
    [reflexivity|].
  destruct (_ <? distance); [|reflexivity].
  rewrite IH by lia. apply list_lookup_insert_ne. lia.
Qed.

Lemma flag_earlier_flags (pj k : nat) (keep : list bool) (i : nat) :
  ascending_positions peaks ->
  (k <= length peaks)%nat ->
  length keep = length peaks ->
  (i < k)%nat ->
  Z.of_nat pj - Z.of_nat (nth i peaks O) < distance ->
  Scipy.flag_earlier peaks pj distance k keep !! i = Some false.
Proof.
  intros Hasc. revert keep.
  induction k as [|k IH]; intros keep Hk Hlen Hik Hclose; [lia|].
  cbn [Scipy.flag_earlier].
  assert (nth i peaks O <= nth k peaks O)%nat as Hmono by (apply Hasc; lia).
  replace (Z.of_nat pj - Z.of_nat (nth k peaks O) <? distance) with true
    by (symmetry; apply Z.ltb_lt; lia).
  destruct (decide (i = k)) as [->|Hne].
  - rewrite flag_earlier_above by lia. apply list_lookup_insert_eq. lia.
  - apply IH; [lia | rewrite length_insert; exact Hlen | lia | exact Hclose].
Qed.

Lemma flag_later_length (pj k fuel : nat) (keep : list bool) :
  length (Scipy.flag_later peaks pj distance k fuel keep) = length keep.
Proof.
  revert k keep. induction fuel as [|fuel IH]; intros k keep; cbn [Scipy.flag_later];
    [reflexivity|].
  destruct (_ && _); [|reflexivity].
  rewrite IH. apply length_insert.
Qed.

Lemma flag_later_keeps (pj k fuel : nat) (keep : list bool) (i : nat) :
  Scipy.flag_later peaks pj distance k fuel keep !! i = Some true ->
  keep !! i = Some true.
Proof.
  revert k keep. induction fuel as [|fuel IH]; intros k keep; cbn [Scipy.flag_later];
    [trivial|].
  destruct (_ && _); [|trivial].
  intros Hi. apply IH in Hi. eapply insert_false_lookup_true. exact Hi.
Qed.

Lemma flag_later_below (pj k fuel : nat) (keep : list bool) (i : nat) :
  (i < k)%nat ->
  Scipy.flag_later peaks pj distance k fuel keep !! i = keep !! i.
Proof.
  revert k keep. induction fuel as [|fuel IH]; intros k keep Hik; cbn [Scipy.flag_later];
    [reflexivity|].
  destruct (_ && _); [|reflexivity].
  rewrite IH by lia. apply list_lookup_insert_ne. lia.
Qed.

Lemma flag_later_flags (pj k fuel : nat) (keep : list bool) (i : nat) :
  ascending_positions peaks ->
  length keep = length peaks ->
  (k <= i < k + fuel)%nat ->
  (i < length peaks)%nat ->
  Z.of_nat (nth i peaks O) - Z.of_nat pj < distance ->
  Scipy.flag_later peaks pj distance k fuel keep !! i = Some false.
Proof.
  intros Hasc. revert k keep.
  induction fuel as [|fuel IH]; intros k keep Hlen Hki Hi Hclose; [lia|].
  cbn [Scipy.flag_later].
  assert (nth k peaks O <= nth i peaks O)%nat as Hmono by (apply Hasc; lia).
  replace (k <? length peaks)%nat with true
    by (symmetry; apply Nat.ltb_lt; lia).
  replace (Z.of_nat (nth k peaks O) - Z.of_nat pj <? distance) with true
    by (symmetry; apply Z.ltb_lt; lia).
  cbn [andb].
  destruct (decide (i = k)) as [->|Hne].
  - rewrite flag_later_below by lia. apply list_lookup_insert_eq. lia.
  - apply IH; [rewrite length_insert; exact Hlen | lia | exact Hi | exact Hclose].
Qed.

(** The scan to the right stops at the end of the array at the latest:
    any fuel beyond the number of remaining positions is unused. *)
Lemma flag_later_fuel (pj k f1 f2 : nat) (keep : list bool) :
  (length peaks - k <= f1)%nat -> (length peaks - k <= f2)%nat ->
  Scipy.flag_later peaks pj distance k f1 keep
  = Scipy.flag_later peaks pj distance k f2 keep.
Proof.
  revert k f2 keep. induction f1 as [|f1 IH]; intros k f2 keep H1 H2.
  - destruct f2 as [|f2]; [reflexivity|]. cbn [Scipy.flag_later].
    replace (k <? length peaks)%nat with false
      by (symmetry; apply Nat.ltb_ge; lia).
    reflexivity.
  - destruct f2 as [|f2]; cbn [Scipy.flag_later].
    + replace (k <? length peaks)%nat with false
        by (symmetry; apply Nat.ltb_ge; lia).
      reflexivity.
    + destruct (_ && _); [|reflexivity]. apply IH; lia.
Qed.

Lemma visit_peak_length (keep : list bool) (j : nat) :
  length (Scipy.visit_peak peaks distance keep j) = length keep.
Proof.
  unfold Scipy.visit_peak. destruct (nth j keep false); [|reflexivity].
  cbv zeta. rewrite flag_later_length. apply flag_earlier_length.
Qed.

Lemma visit_peak_keeps (keep : list bool) (j i : nat) :
  Scipy.visit_peak peaks distance keep j !! i = Some true -> keep !! i = Some true.
Proof.
  unfold Scipy.visit_peak. destruct (nth j keep false); [|trivial].
  cbv zeta. intros Hi. apply flag_later_keeps in Hi.
  eapply flag_earlier_keeps. exact Hi.
Qed.

Lemma visit_peak_false (keep : list bool) (j i : nat) :
  keep !! i = Some false ->
  Scipy.visit_peak peaks distance keep j !! i = Some false.
Proof.
  intros Hi.
  destruct (lookup_lt_is_Some_2 (Scipy.visit_peak peaks distance keep j) i) as [b Hb].
  - rewrite visit_peak_length. eapply lookup_lt_Some. exact Hi.
  - destruct b; [|exact Hb]. apply visit_peak_keeps in Hb. congruence.
Qed.

Lemma visit_peak_self (keep : list bool) (j : nat) :
  Scipy.visit_peak peaks distance keep j !! j = keep !! j.
Proof.
  unfold Scipy.visit_peak. destruct (nth j keep false); [|reflexivity].
  cbv zeta. rewrite flag_later_below by lia. apply flag_earlier_above. lia.
Qed.

Lemma visit_peak_clears (keep : list bool) (j i : nat) :
  ascending_positions peaks ->
  length keep = length peaks ->
  keep !! j = Some true ->
  i <> j ->
  (i < length peaks)%nat ->
  Z.abs (Z.of_nat (nth i peaks O) - Z.of_nat (nth j peaks O)) < distance ->
  Scipy.visit_peak peaks distance keep j !! i = Some false.
Proof.
  intros Hasc Hlen Hj Hne Hi Hclose.
  assert (j < length peaks)%nat as Hjn
    by (rewrite <- Hlen; eapply lookup_lt_Some; exact Hj).
  unfold Scipy.visit_peak. rewrite (nth_lookup_Some _ _ false _ Hj). cbv zeta.
  destruct (decide (i < j)%nat) as [Hlt|Hge].
  - rewrite flag_later_below by lia.
    apply flag_earlier_flags; [exact Hasc | lia | exact Hlen | exact Hlt | lia].
  - apply flag_later_flags;
      [exact Hasc | rewrite flag_earlier_length; exact Hlen | lia | exact Hi | lia].
Qed.

Lemma settled_preserved (keep : list bool) (j j' : nat) :
  settled peaks distance keep j' ->
  settled peaks distance (Scipy.visit_peak peaks distance keep j) j'.
Proof.
  intros Hs Hkept i Hne Hi Hclose.
  apply visit_peak_false. apply Hs; try assumption.
  eapply visit_peak_keeps. exact Hkept.
Qed.

Lemma settled_after_visit (keep : list bool) (j : nat) :
  ascending_positions peaks ->
  length keep = length peaks ->
  settled peaks distance (Scipy.visit_peak peaks distance keep j) j.
Proof.
  intros Hasc Hlen Hkept i Hne Hi Hclose.
  rewrite visit_peak_self in Hkept.
  apply visit_peak_clears; assumption.
Qed.

Lemma visits_settle (order : list nat) (keep : list bool) :
  ascending_positions peaks ->
  length keep = length peaks ->
  length (fold_left (Scipy.visit_peak peaks distance) order keep) = length peaks /\
  (forall j, settled peaks distance keep j ->
     settled peaks distance (fold_left (Scipy.visit_peak peaks distance) order keep) j) /\
  (forall j, In j order ->
     settled peaks distance (fold_left (Scipy.visit_peak peaks distance) order keep) j).
Proof.
  intros Hasc. revert keep.
  induction order as [|j order IH]; intros keep Hlen; cbn [fold_left].
  - split; [exact Hlen|]. split; [trivial|]. intros j [].
  - destruct (IH (Scipy.visit_peak peaks distance keep j)) as (Hl & Hold & Hnew).
    { rewrite visit_peak_length. exact Hlen. }
    split; [exact Hl|]. split.
    + intros j' Hs. apply Hold. apply settled_preserved. exact Hs.
    + intros j' [<- | Hin].
      * apply Hold. apply settled_after_visit; assumption.
      * apply Hnew. exact Hin.
Qed.

(** Whatever the visiting order, as long as it reaches every position,
    two kept peaks are at least [distance] apart. *)
Lemma select_in_spaced (order : list nat) (i k : nat) :
  ascending_positions peaks ->
  (forall j, (j < length peaks)%nat -> In j order) ->
  (i < k)%nat ->
  Scipy.select_by_peak_distance_in order peaks distance !! i = Some true ->
  Scipy.select_by_peak_distance_in order peaks distance !! k = Some true ->
  distance <= Z.of_nat (nth k peaks O) - Z.of_nat (nth i peaks O).
Proof.
  intros Hasc Hall Hik Hi Hk. unfold Scipy.select_by_peak_distance_in in *.
  destruct (visits_settle order (repeat true (length peaks)) Hasc)
    as (Hlen & _ & Hset); [apply repeat_length|].
  assert (k < length peaks)%nat as Hkn
    by (rewrite <- Hlen; eapply lookup_lt_Some; exact Hk).
  assert (nth i peaks O <= nth k peaks O)%nat as Hmono by (apply Hasc; lia).
  destruct (Z_lt_le_dec (Z.of_nat (nth k peaks O) - Z.of_nat (nth i peaks O)) distance)
    as [Hclose|Hfar]; [|exact Hfar].
  exfalso.
  assert (In i order) as Hin by (apply Hall; lia).
  pose proof (Hset i Hin Hi k ltac:(lia) Hkn ltac:(lia)) as Hfalse.
  congruence.
Qed.

End DistanceCondition.

(** [argsort] returns every position. *)

Lemma insert_by_In (priority : list float) (i : nat) (sorted : list nat) (j : nat) :
  In j (Scipy.insert_by priority i sorted) <-> j = i \/ In j sorted.
Proof.
  induction sorted as [|s sorted IH]; cbn [Scipy.insert_by].
  - cbn. intuition.
  - destruct (_ <? _)%float; cbn [In]; [intuition|]. rewrite IH. intuition.
Qed.

Lemma argsort_fold_In (priority : list float) (l acc : list nat) (j : nat) :
  In j (fold_left (fun acc i => Scipy.insert_by priority i acc) l acc)
  <-> In j l \/ In j acc.
Proof.
  revert acc. induction l as [|i l IH]; intros acc; cbn [fold_left].
  - cbn. intuition.
  - rewrite IH, insert_by_In. cbn [In]. intuition.
Qed.

Lemma argsort_complete (priority : list float) (j : nat) :
  (j < length priority)%nat -> In j (Scipy.argsort priority).
Proof.
  intros Hj. unfold Scipy.argsort. apply argsort_fold_In. left.
  apply in_seq. lia.
Qed.

(** ** Boolean masks and spacing *)

Lemma mask_In {A} (a : list A) (keep : list bool) (x : A) :
  In x (Np.mask a keep) -> exists j, a !! j = Some x /\ keep !! j = Some true.
Proof.
  revert keep. induction a as [|y a IH]; intros keep Hin; [destruct Hin|].
  destruct keep as [|b keep]; [destruct Hin|].
  cbn [Np.mask] in Hin. destruct b.
  - destruct Hin as [<- | Hin]; [exists O; split; reflexivity|].
    destruct (IH keep Hin) as (j & Hj & Hk). exists (S j). split; assumption.
  - destruct (IH keep Hin) as (j & Hj & Hk). exists (S j). split; assumption.
Qed.

Lemma mask_strongly_sorted {A} (R : A -> A -> Prop) (a : list A) (keep : list bool) :
  (forall i k x y, (i < k)%nat ->
     a !! i = Some x -> a !! k = Some y ->
     keep !! i = Some true -> keep !! k = Some true -> R x y) ->
  StronglySorted R (Np.mask a keep).
Proof.
  revert keep. induction a as [|x a IH]; intros keep Hpairs; [constructor|].
  destruct keep as [|b keep]; [constructor|].
  assert (StronglySorted R (Np.mask a keep)) as Htail.
  { apply IH. intros i k u v Hik Hu Hv Hi Hk.
    apply (Hpairs (S i) (S k) u v); [lia | assumption..]. }
  cbn [Np.mask]. destruct b; [|exact Htail].
  constructor; [exact Htail|].
  rewrite Forall_forall. intros y Hy. apply list_elem_of_In in Hy.
  destruct (mask_In a keep y Hy) as (j & Hj & Hk).
  apply (Hpairs O (S j) x y); [lia | reflexivity | assumption | reflexivity | assumption].
Qed.

Lemma filter_strongly_sorted {A} (R : A -> A -> Prop) (f : A -> bool) (l : list A) :
  StronglySorted R l -> StronglySorted R (List.filter f l).
Proof.
  induction 1 as [|x l Hss IH Hall]; cbn [List.filter]; [constructor|].
  destruct (f x); [|exact IH].
  constructor; [exact IH|].
  rewrite Forall_forall in *. intros y Hy. apply Hall.
  apply list_elem_of_In in Hy. apply filter_In in Hy. apply list_elem_of_In. tauto.
Qed.

Lemma strongly_sorted_min_spacing (d : Z) (l : list nat) :
  StronglySorted (fun a b => d <= Z.of_nat b - Z.of_nat a) l ->
  min_spacing d (map Z.of_nat l).
Proof.
  induction 1 as [|x l Hss IH Hall]; [exact I|].
  destruct l as [|y l]; [exact I|].
  cbn [map min_spacing] in *. split; [|exact IH].
  rewrite Forall_forall in Hall. apply Hall. left.
Qed.

(** ** The peak finder returns spaced, ascending positions *)

Lemma find_peaks_spaced (x : list float) (height : float) (distance : Z) :
  1 <= distance ->
  exists peaks,
    Scipy.find_peaks x height distance = ([], Return peaks) /\
    strictly_ascending peaks /\
    min_spacing distance peaks.
Proof.
  intros Hd. unfold Scipy.find_peaks.
  replace (distance <? 1) with false by (symmetry; apply Z.ltb_ge; lia).
  cbv zeta.
  set (cand := List.filter (fun p => (height <=? Scipy.at_ x p)%float)
                 (Scipy.local_maxima_1d x)).
  assert (StronglySorted lt cand) as Hsorted
    by (apply filter_strongly_sorted, local_maxima_1d_sorted).
  eexists. split; [reflexivity|]. split.
  - apply strongly_sorted_min_spacing, mask_strongly_sorted.
    intros i k u v Hik Hu Hv _ _.
    pose proof (strongly_sorted_lookup_lt cand i k u v Hsorted Hik Hu Hv). lia.
  - apply strongly_sorted_min_spacing, mask_strongly_sorted.
    intros i k u v Hik Hu Hv Hi Hk.
    rewrite <- (nth_lookup_Some _ _ O _ Hu), <- (nth_lookup_Some _ _ O _ Hv).
    apply (select_in_spaced cand distance
             (rev (Scipy.argsort (map (Scipy.at_ x) cand))) i k);
      [apply strongly_sorted_ascending; exact Hsorted | | exact Hik | exact Hi | exact Hk].
    intros j Hj. apply in_rev. rewrite rev_involutive.
    apply argsort_complete. rewrite length_map. exact Hj.
Qed.

(** C3 as stated fails: with the rounded minimum distance of 3 samples the
    detector still returns the peaks 1 and 3, two samples apart. *)
Lemma rounded_distance_is_not_kept :
  let x := [0; 1; 0; 1; 0]%float in
  detect_r_peaks (H := small_arrays) coarse_config (Some x) = ([], Return [1; 3]) /\
  spec_min_distance_samples coarse_config (len x) = 3 /\
  ~ min_spacing (spec_min_distance_samples coarse_config (len x)) [1; 3].
Proof.
  split; [vm_compute; reflexivity|]. split; [vm_compute; reflexivity|].
  intros [Hsp _]. vm_compute in Hsp. apply Hsp. reflexivity.
Qed.

(** C3, amended. Every peak set the detector returns is strictly ascending,
    and when it is not empty the minimum distance was computed as
    [min (max 1 (int (sampling_rate_hz * (60.0 / max_hr_bpm)))) (len - 1)],
    with [int] truncating towards zero, is at least 1, and separates every
    two consecutive peaks. *)
Theorem detected_peaks_are_spaced `{SciLib} (cfg : config) (x : list float)
        (log : list message) (peaks : list Z) :
  detect_r_peaks cfg (Some x) = (log, Return peaks) ->
  strictly_ascending peaks /\
  (peaks <> [] ->
   exists d, result (min_distance_samples cfg (len x)) = Return d /\
             1 <= d /\ min_spacing d peaks).
Proof.
  unfold detect_r_peaks.
  destruct (len x =? 0); [intros [= _ <-]; split; [exact I | congruence]|].
  cbv zeta.
  match goal with |- context [if ?c then _ else _] => destruct c end;
    [intros [= _ <-]; split; [exact I | congruence]|].
  destruct (SAMPLING_RATE_HZ cfg <=? 0);
    [intros [= _ <-]; split; [exact I | congruence]|].
  destruct (min_distance_samples cfg (len x)) as [logd [d|e]] eqn:Hmin; run;
    [|intros [= _ ?]; discriminate].
  destruct (d <=? 0) eqn:Hd; [intros [= _ <-]; split; [exact I | congruence]|].
  apply Z.leb_gt in Hd.
  destruct (find_peaks_spaced x
              (Np.median x + PEAK_HEIGHT_THRESHOLD_MULTIPLIER cfg * Np.std x)%float
              d ltac:(lia)) as (found & Hfound & Hasc & Hsp).
  rewrite Hfound. intros [= _ <-].
  split; [exact Hasc|]. intros _. exists d. split; [reflexivity|]. split; [lia | exact Hsp].
Qed.

Lemma detected_peaks_are_spaced_witness :
  strictly_ascending [1; 3] /\
  exists d, result (min_distance_samples coarse_config 5) = Return d /\
            1 <= d /\ min_spacing d [1; 3].
Proof.
  destruct (detected_peaks_are_spaced (H := small_arrays) coarse_config
              [0; 1; 0; 1; 0]%float [] [1; 3]) as [Hasc Hsp].
  - vm_compute. reflexivity.
  - split; [exact Hasc|]. apply Hsp. discriminate.
Defined.

(** ** Division by a zero Nyquist frequency *)

Lemma float_of_int_zero : float_of_int 0 = ([], Return 0%float).
Proof. vm_compute. reflexivity. Qed.

Lemma py_truediv_zero_nyquist (a : float) :
  py_truediv a (0.5 * 0)%float = ([], Raise ZeroDivisionError).
Proof.
  unfold py_truediv.
  replace ((0.5 * 0 =? 0)%float) with true by (vm_compute; reflexivity).
  reflexivity.
Qed.

Lemma normalized_corners_zero_rate (cfg : config) :
  SAMPLING_RATE_HZ cfg = 0 ->
  normalized_corners cfg = ([], Raise ZeroDivisionError).
Proof.
  intros Hrate. unfold normalized_corners. rewrite Hrate, float_of_int_zero.
  run. rewrite py_truediv_zero_nyquist. reflexivity.
Qed.

Lemma butter_bandpass_filter_zero_rate `{SciLib} (cfg : config) (data : list float) :
  SAMPLING_RATE_HZ cfg = 0 ->
  butter_bandpass_filter cfg data = ([], Raise ZeroDivisionError).
Proof.
  intros Hrate. unfold butter_bandpass_filter.
  rewrite (normalized_corners_zero_rate cfg Hrate). reflexivity.
Qed.

(** X1. With a sampling rate of 0 the filter raises ZeroDivisionError on
    [lowcut / nyquist], before either guard is tested: neither the buffer
    nor the cut-off frequencies matter, and nothing is printed. *)
Theorem filter_zero_rate_raises `{SciLib} (cfg : config) (data : list float) :
  SAMPLING_RATE_HZ cfg = 0 ->
  result (butter_bandpass_filter cfg data) = Raise ZeroDivisionError /\
  trace (butter_bandpass_filter cfg data) = [].
Proof.
  intros Hrate. rewrite (butter_bandpass_filter_zero_rate cfg data Hrate).
  split; reflexivity.
Qed.

Lemma filter_zero_rate_raises_witness :
  result (butter_bandpass_filter (H := small_arrays) zero_rate_config [0; 1; 0]%float)
  = Raise ZeroDivisionError /\
  trace (butter_bandpass_filter (H := small_arrays) zero_rate_config [0; 1; 0]%float) = [].
Proof.
  apply (filter_zero_rate_raises (H := small_arrays) zero_rate_config [0; 1; 0]%float).
  reflexivity.
Defined.

Lemma len_pos_of_nonempty {A} (a : list A) : a <> [] -> 0 < len a.
Proof.
  destruct a as [|x a]; [contradiction|]. intros _. rewrite len_cons.
  pose proof (len_nonneg a). lia.
Qed.

(** X2. With a sampling rate of 0 the orchestrator does not abort on a
    non-empty buffer: it announces the filter stage and the filter's
    ZeroDivisionError escapes, so no result is returned. *)
Theorem pipeline_zero_rate_raises `{SciLib} (cfg : config)
        (timestamps : option (list float)) (raw : list float)
        (source_identifier : string) (duration_minutes : float) :
  SAMPLING_RATE_HZ cfg = 0 ->
  raw <> [] ->
  process_ecg_data cfg timestamps (Some raw) source_identifier duration_minutes
  = ([InfoProcessing source_identifier; InfoDataLength (len raw);
      InfoSamplingRate 0; InfoFiltering],
     Raise ZeroDivisionError).
Proof.
  intros Hrate Hne. pose proof (len_pos_of_nonempty raw Hne) as Hlen.
  unfold process_ecg_data.
  replace (len raw =? 0) with false by (symmetry; apply Z.eqb_neq; lia).
  rewrite Hrate.
  replace (len raw <? 0 * 2) with false by (symmetry; apply Z.ltb_ge; lia).
  unfold run_stages. rewrite (butter_bandpass_filter_zero_rate cfg raw Hrate).
  reflexivity.
Qed.

Lemma pipeline_zero_rate_raises_witness :
  process_ecg_data (H := small_arrays) zero_rate_config None (Some [0; 1; 0]%float)
    "serial" 1%float
  = ([InfoProcessing "serial"; InfoDataLength 3; InfoSamplingRate 0; InfoFiltering],
     Raise ZeroDivisionError).
Proof.
  apply (pipeline_zero_rate_raises (H := small_arrays) zero_rate_config None
           [0; 1; 0]%float "serial" 1%float).
  - reflexivity.
  - discriminate.
Defined.

(** ** SignalFilter: every path *)



Lemma default_corners :
  normalized_corners default_config
  = ([], Return ((0.5 / 125)%float, (40 / 125)%float)).
Proof. vm_compute. reflexivity. Qed.

(** X4. The shipped configuration (0.5 Hz to 40 Hz at 250 Hz, order 3) is a
    valid filter specification: on every buffer of at least 9 samples both
    guards pass and the filter hands the normalized corners 0.5/125 and
    40/125 to SciPy, returning its output, or the input with the
    filter-error diagnostic when SciPy raises ValueError. *)
Theorem shipped_filter_reaches_scipy `{SciLib} (data : list float) :
  9 <= len data ->
  butter_bandpass_filter default_config data =
    match butter_filtfilt 3 (0.5 / 125)%float (40 / 125)%float data with
    | Some y => ([], Return y)
    | None => ([ErrApplyingFilter], Return data)
    end.
Proof.
  intros Hlen. unfold butter_bandpass_filter. rewrite default_corners. run.
  replace ((0.5 / 125 <=? 0)%float || (1 <=? 40 / 125)%float
           || (40 / 125 <=? 0.5 / 125)%float) with false
    by (vm_compute; reflexivity).
  cbn [FILTER_ORDER default_config].
  replace (len data <? 3 * 3) with false by (symmetry; apply Z.ltb_ge; lia).
  destruct (butter_filtfilt 3 (0.5 / 125)%float (40 / 125)%float data); reflexivity.
Qed.

Lemma shipped_filter_reaches_scipy_witness :
  let data := [0; 1; 0; 1; 0; 1; 0; 1; 0; 1]%float in
  butter_bandpass_filter (H := small_arrays) default_config data
  = ([ErrApplyingFilter], Return data).
Proof.
  intros data.
  rewrite (shipped_filter_reaches_scipy (H := small_arrays) data);
    [reflexivity | vm_compute; discriminate].
Defined.

(** ** PeakDetector: where the peaks lie *)

Lemma plateau_end_le (x : list float) (xi : float) (i_max fuel i_ahead : nat) :
  (i_ahead <= i_max)%nat ->
  (Scipy.plateau_end x xi i_ahead i_max fuel <= i_max)%nat.
Proof.
  revert i_ahead. induction fuel as [|fuel IH]; intros i_ahead Hle;
    cbn [Scipy.plateau_end]; [exact Hle|].
  destruct (i_ahead <? i_max)%nat eqn:Hlt; cbn [andb]; [|exact Hle].
  apply Nat.ltb_lt in Hlt.
  destruct (Scipy.at_ x i_ahead =? xi)%float; [|exact Hle].
  apply IH. lia.
Qed.

Lemma local_maxima_from_below_end (x : list float) (i_max fuel i : nat) :
  Forall (fun p => (p + 1 <= i_max)%nat) (Scipy.local_maxima_from x i i_max fuel).
Proof.
  revert i. induction fuel as [|fuel IH]; intros i; cbn [Scipy.local_maxima_from];
    [constructor|].
  destruct (i <? i_max)%nat eqn:Hlt; [|constructor].
  apply Nat.ltb_lt in Hlt.
  destruct (Scipy.at_ x (i - 1) <? Scipy.at_ x i)%float; [|apply IH].
  cbv zeta.
  pose proof (plateau_end_ge x (Scipy.at_ x i) i_max (i_max - i) (i + 1)) as Hge.
  pose proof (plateau_end_le x (Scipy.at_ x i) i_max (i_max - i) (i + 1) ltac:(lia))
    as Hle.
  set (i_ahead := Scipy.plateau_end x (Scipy.at_ x i) (i + 1) i_max (i_max - i)) in *.
  destruct (Scipy.at_ x i_ahead <? Scipy.at_ x i)%float; [|apply IH].
  constructor; [|apply IH].
  pose proof (Nat.div_mod_eq (i + (i_ahead - 1)) 2) as Hdm.
  pose proof (Nat.mod_upper_bound (i + (i_ahead - 1)) 2) as Hmod.
  lia.
Qed.

Lemma local_maxima_1d_interior (x : list float) (p : nat) :
  In p (Scipy.local_maxima_1d x) -> (1 <= p /\ p + 2 <= length x)%nat.
Proof.
  intros Hin. unfold Scipy.local_maxima_1d in Hin.
  destruct (local_maxima_from_sorted x (length x - 1) (length x) 1) as [Hlo _].
  pose proof (local_maxima_from_below_end x (length x - 1) (length x) 1) as Hhi.
  rewrite Forall_forall in Hlo, Hhi. apply list_elem_of_In in Hin.
  specialize (Hlo p Hin). specialize (Hhi p Hin). cbv beta in *. lia.
Qed.

Lemma mask_subset {A} (a : list A) (keep : list bool) (x : A) :
  In x (Np.mask a keep) -> In x a.
Proof.
  intros Hin. destruct (mask_In a keep x Hin) as (j & Hj & _).
  apply list_elem_of_In. eapply list_elem_of_lookup_2. exact Hj.
Qed.

Lemma find_peaks_members (x : list float) (height : float) (distance : Z)
      (log : list message) (peaks : list Z) (p : Z) :
  Scipy.find_peaks x height distance = (log, Return peaks) ->
  In p peaks ->
  exists q : nat,
    p = Z.of_nat q /\ In q (Scipy.local_maxima_1d x) /\
    (height <=? Scipy.at_ x q)%float = true.
Proof.
  unfold Scipy.find_peaks. destruct (distance <? 1); [discriminate|].
  cbv zeta. intros [= _ <-] Hin.
  apply in_map_iff in Hin. destruct Hin as (q & <- & Hq).
  apply mask_subset, filter_In in Hq. exists q. tauto.
Qed.

(** A non-empty peak set comes from the peak finder, called with the
    threshold and the clamped distance. *)
Lemma detect_r_peaks_found `{SciLib} (cfg : config) (x : list float)
      (log : list message) (peaks : list Z) :
  detect_r_peaks cfg (Some x) = (log, Return peaks) ->
  peaks <> [] ->
  exists logd d logp,
    0 < SAMPLING_RATE_HZ cfg /\
    min_distance_samples cfg (len x) = (logd, Return d) /\
    1 <= d /\
    Scipy.find_peaks x (peak_height_threshold cfg x) d = (logp, Return peaks).
Proof.
  unfold detect_r_peaks, peak_height_threshold.
  destruct (len x =? 0); [intros [= _ <-]; congruence|].
  cbv zeta.
  match goal with |- context [if ?c then _ else _] => destruct c end;
    [intros [= _ <-]; congruence|].
  destruct (SAMPLING_RATE_HZ cfg <=? 0) eqn:Hrate; [intros [= _ <-]; congruence|].
  apply Z.leb_gt in Hrate.
  destruct (min_distance_samples cfg (len x)) as [logd [d|e]] eqn:Hmin; run;
    [|intros [= _ ?]; discriminate].
  destruct (d <=? 0) eqn:Hd; [intros [= _ <-]; congruence|].
  apply Z.leb_gt in Hd.
  destruct (Scipy.find_peaks x _ d) as [logp [found|e]] eqn:Hfound;
    [|intros [= _ ?]; discriminate].
  intros [= _ <-] _. exists logd, d, logp.
  split; [exact Hrate|]. split; [reflexivity|]. split; [lia | exact Hfound].
Qed.

(** X5. Every index the detector returns lies strictly inside the signal,
    between 1 and len - 2: the first and the last sample are never reported
    as peaks, and a signal of fewer than three samples has none. *)
Theorem detected_peaks_are_interior `{SciLib} (cfg : config) (x : list float)
        (log : list message) (peaks : list Z) :
  detect_r_peaks cfg (Some x) = (log, Return peaks) ->
  Forall (interior_index (len x)) peaks /\
  (len x < 3 -> peaks = []).
Proof.
  intros Hdet.
  assert (Forall (interior_index (len x)) peaks) as Hint.
  { destruct peaks as [|p0 rest]; [constructor|].
    destruct (detect_r_peaks_found cfg x log (p0 :: rest) Hdet ltac:(discriminate))
      as (logd & d & logp & _ & _ & _ & Hfound).
    rewrite Forall_forall. intros p Hp. apply list_elem_of_In in Hp.
    destruct (find_peaks_members _ _ _ _ _ p Hfound Hp) as (q & -> & Hq & _).
    apply local_maxima_1d_interior in Hq. unfold interior_index, len. lia. }
  split; [exact Hint|].
  intros Hshort. destruct peaks as [|p0 rest]; [reflexivity|].
  apply Forall_cons in Hint. destruct Hint as [Hp0 _].
  unfold interior_index in Hp0. lia.
Qed.

Lemma detected_peaks_are_interior_witness :
  Forall (interior_index 5) [1; 3] /\ (5 < 3 -> [1; 3] = @nil Z).
Proof.
  apply (detected_peaks_are_interior (H := small_arrays) coarse_config
           [0; 1; 0; 1; 0]%float [] [1; 3]).
  vm_compute. reflexivity.
Defined.

(** X6. Every peak the detector returns reaches the height threshold
    [median + PEAK_HEIGHT_THRESHOLD_MULTIPLIER * std] of the signal it was
    given. *)
Theorem detected_peaks_reach_threshold `{SciLib} (cfg : config) (x : list float)
        (log : list message) (peaks : list Z) :
  detect_r_peaks cfg (Some x) = (log, Return peaks) ->
  Forall (fun p => (peak_height_threshold cfg x <=? Scipy.at_ x (Z.to_nat p))%float = true)
         peaks.
Proof.
  intros Hdet. destruct peaks as [|p0 rest]; [constructor|].
  destruct (detect_r_peaks_found cfg x log (p0 :: rest) Hdet ltac:(discriminate))
    as (logd & d & logp & _ & _ & _ & Hfound).
  rewrite Forall_forall. intros p Hp. apply list_elem_of_In in Hp.
  destruct (find_peaks_members _ _ _ _ _ p Hfound Hp) as (q & -> & _ & Hq).
  rewrite Nat2Z.id. exact Hq.
Qed.

Lemma detected_peaks_reach_threshold_witness :
  let x := [0; 1; 0; 1; 0]%float in
  Forall (fun p => (peak_height_threshold (H := small_arrays) coarse_config x
                    <=? Scipy.at_ x (Z.to_nat p))%float = true) [1; 3].
Proof.
  apply (detected_peaks_reach_threshold (H := small_arrays) coarse_config
           [0; 1; 0; 1; 0]%float [] [1; 3]).
  vm_compute. reflexivity.
Defined.

(** ** MetricsCalculator: the defined values *)

Lemma hrv_metrics_dom `{SciLib} (rr_intervals_ms : option (list float)) :
  dom (calculate_hrv_metrics rr_intervals_ms) = metric_keys.
Proof.
  unfold calculate_hrv_metrics, metric_keys.
  destruct rr_intervals_ms as [rr|];
    [|rewrite !dom_insert_L, dom_empty_L; set_solver].
  destruct (len rr <? 2); [rewrite !dom_insert_L, dom_empty_L; set_solver|].
  destruct (2 <=? len rr); cbv zeta;
    match goal with |- context [if ?c then _ else _] => destruct c end;
    rewrite !dom_insert_L, dom_empty_L; set_solver.
Qed.



(** ** The shipped configuration: peak spacing *)

Lemma default_min_distance (n : Z) :
  min_distance_samples default_config n = ([], Return (Z.min 68 (n - 1))).
Proof.
  unfold min_distance_samples. generalize (n - 1). intros m.
  vm_compute. reflexivity.
Qed.

(** X8. Under the shipped configuration (250 Hz, 220 bpm ceiling) the minimum
    distance is 68 samples for every signal of at least 69 samples, and any
    two consecutive peaks the detector returns are at least 68 samples
    (272 ms) apart. *)
Theorem shipped_peaks_68_apart `{SciLib} (x : list float)
        (log : list message) (peaks : list Z) :
  69 <= len x ->
  detect_r_peaks default_config (Some x) = (log, Return peaks) ->
  min_distance_samples default_config (len x) = ([], Return 68) /\
  min_spacing 68 peaks.
Proof.
  intros Hlen Hdet.
  assert (min_distance_samples default_config (len x) = ([], Return 68)) as Hmin.
  { rewrite default_min_distance. do 2 f_equal. lia. }
  split; [exact Hmin|].
  destruct peaks as [|p0 rest]; [exact I|].
  destruct (detect_r_peaks_found default_config x log (p0 :: rest) Hdet
              ltac:(discriminate)) as (logd & d & logp & _ & Hd & _ & Hfound).
  rewrite Hmin in Hd. injection Hd as _ <-.
  destruct (find_peaks_spaced x (peak_height_threshold default_config x) 68
              ltac:(lia)) as (found & Hf & _ & Hsp).
  rewrite Hf in Hfound. injection Hfound as _ <-. exact Hsp.
Qed.

Lemma shipped_peaks_68_apart_witness :
  min_distance_samples default_config (len two_spikes) = ([], Return 68) /\
  min_spacing 68 [10; 100].
Proof.
  apply (shipped_peaks_68_apart (H := small_arrays) two_spikes [] [10; 100]).
  - vm_compute. discriminate.
  - vm_compute. reflexivity.
Defined.

(** ** PipelineOrchestrator: what comes back *)

Lemma run_stages_returns `{SciLib} (cfg : config) (raw : list float)
      (log : list message) (out : pipeline_output) :
  run_stages cfg raw = (log, Return out) ->
  exists logf filtered logd peaks rr,
    butter_bandpass_filter cfg raw = (logf, Return filtered) /\
    detect_r_peaks cfg (Some filtered) = (logd, Return peaks) /\
    ((len peaks < 2 /\ rr = []) \/
     (2 <= len peaks /\
      exists logr, calculate_rr_intervals cfg (Some peaks) = (logr, Return rr))) /\
    out = {| filtered_ecg := Some filtered; r_peaks := Some peaks;
             rr_intervals := Some rr;
             hrv_metrics := calculate_hrv_metrics (Some rr) |}.
Proof.
  unfold run_stages. run.
  destruct (butter_bandpass_filter cfg raw) as [logf [filtered|e]] eqn:Hf;
    [|intros [= _ ?]; discriminate].
  destruct (detect_r_peaks cfg (Some filtered)) as [logd [peaks|e]] eqn:Hd;
    [|intros [= _ ?]; discriminate].
  destruct (len peaks <? 2) eqn:Hn.
  - apply Z.ltb_lt in Hn. intros [= _ <-].
    exists logf, filtered, logd, peaks, []. repeat split; try reflexivity; try assumption.
    left. split; [exact Hn | reflexivity].
  - apply Z.ltb_ge in Hn.
    destruct (calculate_rr_intervals cfg (Some peaks)) as [logr [rr|e]] eqn:Hr;
      [|intros [= _ ?]; discriminate].
    intros [= _ <-].
    exists logf, filtered, logd, peaks, rr. repeat split; try reflexivity; try assumption.
    right. split; [exact Hn|]. exists logr. exact Hr.
Qed.

Lemma process_ecg_data_returns `{SciLib} (cfg : config)
      (timestamps raw_ecg_signal : option (list float))
      (source_identifier : string) (duration_minutes : float)
      (log : list message) (out : pipeline_output) :
  process_ecg_data cfg timestamps raw_ecg_signal source_identifier duration_minutes
  = (log, Return out) ->
  (insufficient_data cfg raw_ecg_signal /\ out = aborted) \/
  (~ insufficient_data cfg raw_ecg_signal /\
   exists raw log', raw_ecg_signal = Some raw /\ run_stages cfg raw = (log', Return out)).
Proof.
  unfold process_ecg_data, insufficient_data.
  destruct raw_ecg_signal as [raw|]; [|intros [= _ <-]; left; split; [exact I | reflexivity]].
  destruct (len raw =? 0) eqn:Hzero.
  { apply Z.eqb_eq in Hzero. intros [= _ <-]. left. split; [left; exact Hzero | reflexivity]. }
  apply Z.eqb_neq in Hzero. run.
  destruct (len raw <? SAMPLING_RATE_HZ cfg * 2) eqn:Hrate.
  - apply Z.ltb_lt in Hrate.
    destruct (len raw <? FILTER_ORDER cfg * 3) eqn:Horder.
    + apply Z.ltb_lt in Horder. intros [= _ <-]. left.
      split; [right; split; assumption | reflexivity].
    + apply Z.ltb_ge in Horder.
      destruct (run_stages cfg raw) as [log' [out'|e]] eqn:Hrun;
        [|intros [= _ ?]; discriminate].
      intros [= _ <-]. right. split; [lia|]. exists raw, log'. split; [reflexivity | exact Hrun].
  - apply Z.ltb_ge in Hrate.
    destruct (run_stages cfg raw) as [log' [out'|e]] eqn:Hrun;
      [|intros [= _ ?]; discriminate].
    intros [= _ <-]. right. split; [lia|]. exists raw, log'. split; [reflexivity | exact Hrun].
Qed.

Lemma detect_r_peaks_ascending `{SciLib} (cfg : config) (x : list float)
      (log : list message) (peaks : list Z) :
  detect_r_peaks cfg (Some x) = (log, Return peaks) -> strictly_ascending peaks.
Proof.
  intros Hdet. destruct peaks as [|p0 rest]; [exact I|].
  destruct (detect_r_peaks_found cfg x log (p0 :: rest) Hdet ltac:(discriminate))
    as (logd & d & logp & _ & _ & Hd & Hfound).
  destruct (find_peaks_spaced x (peak_height_threshold cfg x) d Hd)
    as (found & Hf & Hasc & _).
  rewrite Hf in Hfound. injection Hfound as _ <-. exact Hasc.
Qed.

Lemma detect_r_peaks_interior `{SciLib} (cfg : config) (x : list float)
      (log : list message) (peaks : list Z) :
  detect_r_peaks cfg (Some x) = (log, Return peaks) ->
  Forall (interior_index (len x)) peaks.
Proof.
  intros Hdet. destruct peaks as [|p0 rest]; [constructor|].
  destruct (detect_r_peaks_found cfg x log (p0 :: rest) Hdet ltac:(discriminate))
    as (logd & d & logp & _ & _ & _ & Hfound).
  rewrite Forall_forall. intros p Hp. apply list_elem_of_In in Hp.
  destruct (find_peaks_members _ _ _ _ _ p Hfound Hp) as (q & -> & Hq & _).
  apply local_maxima_1d_interior in Hq. unfold interior_index, len. lia.
Qed.

(** With two peaks or more the interval stage returns one interval per
    consecutive pair, provided the detector found them at this rate. *)
Lemma rr_length_after_detection `{SciLib} (cfg : config) (x : list float)
      (logd logr : list message) (peaks : list Z) (rr : list float) :
  detect_r_peaks cfg (Some x) = (logd, Return peaks) ->
  2 <= len peaks ->
  calculate_rr_intervals cfg (Some peaks) = (logr, Return rr) ->
  length rr = (length peaks - 1)%nat.
Proof.
  intros Hdet Hn Hrr.
  assert (peaks <> []) as Hne by (intros ->; unfold len in Hn; cbn in Hn; lia).
  destruct (detect_r_peaks_found cfg x logd peaks Hdet Hne)
    as (_ & _ & _ & Hrate & _).
  unfold calculate_rr_intervals in Hrr.
  replace (len peaks <? 2) with false in Hrr by (symmetry; apply Z.ltb_ge; lia).
  replace (SAMPLING_RATE_HZ cfg <=? 0) with false in Hrr
    by (symmetry; apply Z.leb_gt; lia).
  destruct (int64_max <? SAMPLING_RATE_HZ cfg); [discriminate|].
  injection Hrr as _ <-. rewrite length_map. apply diff_length.
Qed.

(** X9. The orchestrator never returns a partially filled result: what it
    returns is either the abort tuple (None, None, None, {}) or a complete
    result, with the filtered signal, the peak set and the RR series present
    and the metrics under exactly their five keys. *)
Theorem pipeline_output_aborted_or_complete `{SciLib} (cfg : config)
        (timestamps raw_ecg_signal : option (list float))
        (source_identifier : string) (duration_minutes : float)
        (out : pipeline_output) :
  result (process_ecg_data cfg timestamps raw_ecg_signal
            source_identifier duration_minutes) = Return out ->
  out = aborted \/ complete_output out.
Proof.
  destruct (process_ecg_data cfg timestamps raw_ecg_signal
              source_identifier duration_minutes) as [log r] eqn:Hrun.
  cbn [result snd]. intros ->.
  destruct (process_ecg_data_returns _ _ _ _ _ _ _ Hrun)
    as [[_ ->] | (_ & raw & log' & _ & Hstages)]; [left; reflexivity|].
  right.
  destruct (run_stages_returns cfg raw log' out Hstages)
    as (logf & filtered & logd & peaks & rr & _ & _ & _ & ->).
  exists filtered, peaks, rr. cbn [filtered_ecg r_peaks rr_intervals hrv_metrics].
  repeat split; try reflexivity. apply hrv_metrics_dom.
Qed.

Lemma pipeline_output_aborted_or_complete_witness :
  complete_output
    {| filtered_ecg := Some [0; 1; 0; 1; 0]%float; r_peaks := Some [];
       rr_intervals := Some [];
       hrv_metrics := calculate_hrv_metrics (H := small_arrays) (Some []) |}.
Proof.
  destruct (pipeline_output_aborted_or_complete (H := small_arrays)
              negative_rate_config None (Some [0; 1; 0; 1; 0]%float) "serial" 1%float
              {| filtered_ecg := Some [0; 1; 0; 1; 0]%float; r_peaks := Some [];
                 rr_intervals := Some [];
                 hrv_metrics := calculate_hrv_metrics (H := small_arrays) (Some []) |})
    as [Habort | Hfull].
  - vm_compute. reflexivity.
  - discriminate Habort.
  - exact Hfull.
Defined.

(** X10. The orchestrator returns the abort tuple exactly on insufficient
    data: an absent or empty buffer, or one shorter than both
    sampling_rate_hz * 2 and filter_order * 3.  On every other buffer it
    either returns a complete result or lets an exception escape. *)
Theorem pipeline_aborts_iff_insufficient `{SciLib} (cfg : config)
        (timestamps raw_ecg_signal : option (list float))
        (source_identifier : string) (duration_minutes : float) :
  result (process_ecg_data cfg timestamps raw_ecg_signal
            source_identifier duration_minutes) = Return aborted
  <-> insufficient_data cfg raw_ecg_signal.
Proof.
  split.
  - destruct (process_ecg_data cfg timestamps raw_ecg_signal
                source_identifier duration_minutes) as [log r] eqn:Hrun.
    cbn [result snd]. intros ->.
    destruct (process_ecg_data_returns _ _ _ _ _ _ _ Hrun)
      as [[Hins _] | (_ & raw & log' & _ & Hstages)]; [exact Hins|].
    destruct (run_stages_returns cfg raw log' aborted Hstages)
      as (logf & filtered & logd & peaks & rr & _ & _ & _ & Hout).
    discriminate Hout.
  - intros Hins. unfold process_ecg_data.
    destruct raw_ecg_signal as [raw|]; [|reflexivity].
    destruct (len raw =? 0) eqn:Hzero; [reflexivity|].
    destruct Hins as [Hz | [Hrate Horder]].
    + apply Z.eqb_neq in Hzero. contradiction.
    + apply Z.ltb_lt in Hrate, Horder.
      cbv zeta. rewrite Hrate, Horder. reflexivity.
Qed.

(** X11. In every result the orchestrator returns, the RR series has
    max(n - 1, 0) entries for the n peaks beside it, and the metrics are
    those of that RR series. *)
Theorem pipeline_rr_matches_peaks `{SciLib} (cfg : config)
        (timestamps raw_ecg_signal : option (list float))
        (source_identifier : string) (duration_minutes : float)
        (out : pipeline_output) (peaks : list Z) (rr : list float) :
  result (process_ecg_data cfg timestamps raw_ecg_signal
            source_identifier duration_minutes) = Return out ->
  r_peaks out = Some peaks ->
  rr_intervals out = Some rr ->
  length rr = Nat.max (length peaks - 1) 0 /\
  hrv_metrics out = calculate_hrv_metrics (Some rr).
Proof.
  destruct (process_ecg_data cfg timestamps raw_ecg_signal
              source_identifier duration_minutes) as [log r] eqn:Hrun.
  cbn [result snd]. intros -> Hp Hr.
  destruct (process_ecg_data_returns _ _ _ _ _ _ _ Hrun)
    as [[_ ->] | (_ & raw & log' & _ & Hstages)]; [discriminate Hp|].
  destruct (run_stages_returns cfg raw log' out Hstages)
    as (logf & filtered & logd & peaks' & rr' & _ & Hdet & Hcase & ->).
  cbn [r_peaks rr_intervals] in Hp, Hr. injection Hp as ->. injection Hr as ->.
  split; [|reflexivity].
  destruct Hcase as [[Hn ->] | [Hn [logr Hrr]]].
  - unfold len in Hn. cbn. lia.
  - rewrite (rr_length_after_detection cfg filtered logd logr peaks rr Hdet Hn Hrr). lia.
Qed.

Lemma pipeline_rr_matches_peaks_witness :
  length [1000%float] = Nat.max (length [1; 3] - 1) 0 /\
  calculate_hrv_metrics (H := small_arrays) (Some [1000%float])
  = calculate_hrv_metrics (H := small_arrays) (Some [1000%float]).
Proof.
  apply (pipeline_rr_matches_peaks (H := small_arrays) slow_config None
           (Some [0; 1; 0; 1; 0]%float) "serial" 1%float
           {| filtered_ecg := Some [0; 1; 0; 1; 0]%float; r_peaks := Some [1; 3];
              rr_intervals := Some [1000%float];
              hrv_metrics := calculate_hrv_metrics (H := small_arrays)
                               (Some [1000%float]) |}
           [1; 3] [1000%float]).
  - vm_compute. reflexivity.
  - reflexivity.
  - reflexivity.
Defined.

(** X12. In every complete result the peak set is strictly ascending and
    each of its indices lies strictly inside the filtered signal returned
    beside it, between 1 and len - 2. *)
Theorem pipeline_peaks_index_filtered `{SciLib} (cfg : config)
        (timestamps raw_ecg_signal : option (list float))
        (source_identifier : string) (duration_minutes : float)
        (out : pipeline_output) (filtered : list float) (peaks : list Z) :
  result (process_ecg_data cfg timestamps raw_ecg_signal
            source_identifier duration_minutes) = Return out ->
  filtered_ecg out = Some filtered ->
  r_peaks out = Some peaks ->
  strictly_ascending peaks /\ Forall (interior_index (len filtered)) peaks.
Proof.
  destruct (process_ecg_data cfg timestamps raw_ecg_signal
              source_identifier duration_minutes) as [log r] eqn:Hrun.
  cbn [result snd]. intros -> Hf Hp.
  destruct (process_ecg_data_returns _ _ _ _ _ _ _ Hrun)
    as [[_ ->] | (_ & raw & log' & _ & Hstages)]; [discriminate Hp|].
  destruct (run_stages_returns cfg raw log' out Hstages)
    as (logf & filtered' & logd & peaks' & rr' & _ & Hdet & _ & ->).
  cbn [filtered_ecg r_peaks] in Hf, Hp. injection Hf as ->. injection Hp as ->.
  split; [eapply detect_r_peaks_ascending | eapply detect_r_peaks_interior]; exact Hdet.
Qed.

Lemma pipeline_peaks_index_filtered_witness :
  strictly_ascending [1; 3] /\ Forall (interior_index 5) [1; 3].
Proof.
  apply (pipeline_peaks_index_filtered (H := small_arrays) slow_config None
           (Some [0; 1; 0; 1; 0]%float) "serial" 1%float
           {| filtered_ecg := Some [0; 1; 0; 1; 0]%float; r_peaks := Some [1; 3];
              rr_intervals := Some [1000%float];
              hrv_metrics := calculate_hrv_metrics (H := small_arrays)
                               (Some [1000%float]) |}
           [0; 1; 0; 1; 0]%float [1; 3]).
  - vm_compute. reflexivity.
  - reflexivity.
  - reflexivity.
Defined.

(** X13. A complete result with fewer than three peaks has all five metrics
    undefined: no peak or one peak leaves the RR series empty, and two peaks
    give a single RR interval, which is still too short a series for the
    metrics. *)
Theorem pipeline_few_peaks_undefined `{SciLib} (cfg : config)
        (timestamps raw_ecg_signal : option (list float))
        (source_identifier : string) (duration_minutes : float)
        (out : pipeline_output) (peaks : list Z) :
  result (process_ecg_data cfg timestamps raw_ecg_signal
            source_identifier duration_minutes) = Return out ->
  r_peaks out = Some peaks ->
  (length peaks < 3)%nat ->
  all_undefined (hrv_metrics out) /\
  ((length peaks < 2)%nat -> rr_intervals out = Some []).
Proof.
  destruct (process_ecg_data cfg timestamps raw_ecg_signal
              source_identifier duration_minutes) as [log r] eqn:Hrun.
  cbn [result snd]. intros -> Hp Hfew.
  destruct (process_ecg_data_returns _ _ _ _ _ _ _ Hrun)
    as [[_ ->] | (_ & raw & log' & _ & Hstages)]; [discriminate Hp|].
  destruct (run_stages_returns cfg raw log' out Hstages)
    as (logf & filtered & logd & peaks' & rr & _ & Hdet & Hcase & ->).
  cbn [r_peaks] in Hp. injection Hp as ->. cbn [hrv_metrics rr_intervals].
  destruct Hcase as [[Hn ->] | [Hn [logr Hrr]]].
  - split; [|reflexivity].
    rewrite (short_series_metrics []) by (cbn; lia). exact nan_metrics_undefined.
  - pose proof (rr_length_after_detection cfg filtered logd logr peaks rr Hdet Hn Hrr)
      as Hlen.
    split; [|unfold len in Hn; lia].
    rewrite (short_series_metrics rr) by lia. exact nan_metrics_undefined.
Qed.

Lemma pipeline_few_peaks_undefined_witness :
  all_undefined (calculate_hrv_metrics (H := small_arrays) (Some [1000%float])) /\
  ((length [1; 3] < 2)%nat -> Some [1000%float] = Some []).
Proof.
  apply (pipeline_few_peaks_undefined (H := small_arrays) slow_config None
           (Some [0; 1; 0; 1; 0]%float) "serial" 1%float
           {| filtered_ecg := Some [0; 1; 0; 1; 0]%float; r_peaks := Some [1; 3];
              rr_intervals := Some [1000%float];
              hrv_metrics := calculate_hrv_metrics (H := small_arrays)
                               (Some [1000%float]) |}
           [1; 3]).
  - vm_compute. reflexivity.
  - reflexivity.
  - cbn. lia.
Defined.

Lemma pipeline_aborts_iff_insufficient_witness :
  insufficient_data default_config (Some [0; 1; 0; 1; 0]%float) /\
  result (process_ecg_data (H := small_arrays) default_config None
            (Some [0; 1; 0; 1; 0]%float) "serial" 1%float) = Return aborted.
Proof.
  assert (insufficient_data default_config (Some [0; 1; 0; 1; 0]%float)) as Hins
    by (right; split; vm_compute; reflexivity).
  split; [exact Hins|].
  apply (pipeline_aborts_iff_insufficient (H := small_arrays) default_config None
           (Some [0; 1; 0; 1; 0]%float) "serial" 1%float).
  exact Hins.
Defined.

(** ** PipelineOrchestrator: when completion is announced *)

Lemma float_of_int_trace (z : Z) : trace (float_of_int z) = [].
Proof. unfold float_of_int. destruct (int_fits_float z); reflexivity. Qed.

Lemma py_truediv_trace (a b : float) : trace (py_truediv a b) = [].
Proof. unfold py_truediv. destruct (b =? 0)%float; reflexivity. Qed.

Lemma py_int_trace (f : float) : trace (py_int f) = [].
Proof.
  unfold py_int. destruct (PrimFloat.is_nan f); [reflexivity|].
  destruct (PrimFloat.is_infinity f); reflexivity.
Qed.

Lemma bind_trace_nil {A B} (c : M A) (k : A -> M B) :
  trace c = [] -> (forall a, trace (k a) = []) -> trace (bind c k) = [].
Proof.
  intros Hc Hk. destruct c as [log [a|e]]; cbn in Hc; subst log; cbn.
  - specialize (Hk a). destruct (k a) as [log' r]. exact Hk.
  - reflexivity.
Qed.

Lemma normalized_corners_trace (cfg : config) : trace (normalized_corners cfg) = [].
Proof.
  unfold normalized_corners, mbind, M_bind.
  apply bind_trace_nil; [apply float_of_int_trace | intros fs].
  apply bind_trace_nil; [apply py_truediv_trace | intros low].
  apply bind_trace_nil; [apply py_truediv_trace | intros high]. reflexivity.
Qed.

Lemma min_distance_samples_trace (cfg : config) (n : Z) :
  trace (min_distance_samples cfg n) = [].
Proof.
  unfold min_distance_samples, mbind, M_bind.
  apply bind_trace_nil; [apply float_of_int_trace | intros hr].
  apply bind_trace_nil; [apply py_truediv_trace | intros q].
  apply bind_trace_nil; [apply float_of_int_trace | intros fs].
  apply bind_trace_nil; [apply py_int_trace | intros d]. reflexivity.
Qed.

Lemma find_peaks_trace (x : list float) (height : float) (distance : Z) :
  trace (Scipy.find_peaks x height distance) = [].
Proof. unfold Scipy.find_peaks. destruct (distance <? 1); reflexivity. Qed.

Lemma butter_bandpass_filter_quiet `{SciLib} (cfg : config) (data : list float) :
  ~ In InfoComplete (trace (butter_bandpass_filter cfg data)).
Proof.
  unfold butter_bandpass_filter.
  pose proof (normalized_corners_trace cfg) as Hc.
  destruct (normalized_corners cfg) as [logc [[low high]|e]]; cbn in Hc; subst logc; run;
    [|intros []].
  destruct (_ || _); [cbn; intuition discriminate|].
  destruct (len data <? _); [cbn; intuition discriminate|].
  destruct (butter_filtfilt _ _ _ _); cbn; intuition discriminate.
Qed.

Lemma detect_r_peaks_quiet `{SciLib} (cfg : config) (s : option (list float)) :
  ~ In InfoComplete (trace (detect_r_peaks cfg s)).
Proof.
  unfold detect_r_peaks.
  destruct s as [x|]; [|cbn; intuition discriminate].
  destruct (len x =? 0); [cbn; intuition discriminate|].
  cbv zeta.
  match goal with |- context [if ?c then _ else _] => destruct c end;
    [cbn; intuition discriminate|].
  destruct (SAMPLING_RATE_HZ cfg <=? 0); [cbn; intuition discriminate|].
  pose proof (min_distance_samples_trace cfg (len x)) as Hm.
  destruct (min_distance_samples cfg (len x)) as [logd [d|e]]; cbn in Hm; subst logd; run;
    [|intros []].
  destruct (d <=? 0); [cbn; intuition discriminate|].
  match goal with |- context [Scipy.find_peaks ?a ?b ?c] =>
    pose proof (find_peaks_trace a b c) as Hp;
    destruct (Scipy.find_peaks a b c) as [logp r] end.
  cbn in Hp. subst logp. cbn. intros [].
Qed.

Lemma calculate_rr_intervals_quiet (cfg : config) (p : option (list Z)) :
  ~ In InfoComplete (trace (calculate_rr_intervals cfg p)).
Proof.
  unfold calculate_rr_intervals.
  destruct p as [peaks|]; [|intros []].
  destruct (len peaks <? 2); [intros []|]. cbv zeta.
  destruct (SAMPLING_RATE_HZ cfg <=? 0); [cbn; intuition discriminate|].
  destruct (int64_max <? SAMPLING_RATE_HZ cfg); intros [].
Qed.

Lemma run_stages_completion `{SciLib} (cfg : config) (raw : list float) :
  In InfoComplete (trace (run_stages cfg raw)) <->
  exists out, result (run_stages cfg raw) = Return out.
Proof.
  unfold run_stages.
  pose proof (butter_bandpass_filter_quiet cfg raw) as Hqf.
  destruct (butter_bandpass_filter cfg raw) as [logf [filtered|e]]; run.
  2:{ split; [membership; intuition discriminate | intros [out Hout]; discriminate]. }
  pose proof (detect_r_peaks_quiet cfg (Some filtered)) as Hqd.
  destruct (detect_r_peaks cfg (Some filtered)) as [logd [peaks|e]]; run.
  2:{ split; [membership; intuition discriminate | intros [out Hout]; discriminate]. }
  destruct (len peaks <? 2); run.
  { split; [intros _; eexists; reflexivity|]. intros _. membership. intuition. }
  pose proof (calculate_rr_intervals_quiet cfg (Some peaks)) as Hqr.
  destruct (calculate_rr_intervals cfg (Some peaks)) as [logr [rr|e]]; run.
  - split; [intros _; eexists; reflexivity|]. intros _. membership. intuition.
  - split; [membership; intuition discriminate | intros [out Hout]; discriminate].
Qed.

(** X14. The orchestrator announces completion exactly when it returns a
    complete result: never after an abort, and never when an exception
    escapes from a stage. *)
Theorem completion_announced_iff_complete `{SciLib} (cfg : config)
        (timestamps raw_ecg_signal : option (list float))
        (source_identifier : string) (duration_minutes : float) :
  In InfoComplete (trace (process_ecg_data cfg timestamps raw_ecg_signal
                            source_identifier duration_minutes))
  <-> exists out,
        result (process_ecg_data cfg timestamps raw_ecg_signal
                  source_identifier duration_minutes) = Return out /\
        complete_output out.
Proof.
  assert (forall raw out, result (run_stages cfg raw) = Return out -> complete_output out)
    as Hcomplete.
  { intros raw out Hout.
    destruct (run_stages cfg raw) as [log r] eqn:Hrun. cbn [result snd] in Hout. subst r.
    destruct (run_stages_returns cfg raw log out Hrun)
      as (logf & filtered & logd & peaks & rr & _ & _ & _ & ->).
    exists filtered, peaks, rr. cbn [filtered_ecg r_peaks rr_intervals hrv_metrics].
    repeat split; try reflexivity. apply hrv_metrics_dom. }
  assert (~ complete_output aborted) as Hab
    by (intros (f & p & rr & Hf & _); discriminate Hf).
  unfold process_ecg_data.
  destruct raw_ecg_signal as [raw|].
  2:{ run. split; [membership; intuition discriminate|].
      intros (out & [= <-] & Hc). contradiction. }
  destruct (len raw =? 0).
  { run. split; [membership; intuition discriminate|].
    intros (out & [= <-] & Hc). contradiction. }
  pose proof (run_stages_completion cfg raw) as Hrun.
  specialize (Hcomplete raw).
  destruct (len raw <? SAMPLING_RATE_HZ cfg * 2).
  - destruct (len raw <? FILTER_ORDER cfg * 3).
    { run. split; [membership; intuition discriminate|].
      intros (out & [= <-] & Hc). contradiction. }
    destruct (run_stages cfg raw) as [log r]. run. split.
    + membership. intros [Hd | [Hd | [Hd | [Hd | Hin]]]]; try discriminate.
      apply Hrun in Hin. destruct Hin as [out ->]. exists out. split; [reflexivity|].
      apply Hcomplete. reflexivity.
    + intros (out & -> & _). membership. do 4 right. apply Hrun. exists out. reflexivity.
  - destruct (run_stages cfg raw) as [log r]. run. split.
    + membership. intros [Hd | [Hd | [Hd | Hin]]]; try discriminate.
      apply Hrun in Hin. destruct Hin as [out ->]. exists out. split; [reflexivity|].
      apply Hcomplete. reflexivity.
    + intros (out & -> & _). membership. do 3 right. apply Hrun. exists out. reflexivity.
Qed.

Lemma completion_announced_iff_complete_witness :
  In InfoComplete
     (trace (process_ecg_data (H := small_arrays) slow_config None
               (Some [0; 1; 0; 1; 0]%float) "serial" 1%float)) /\
  ~ In InfoComplete
      (trace (process_ecg_data (H := small_arrays) default_config None
                (Some [0; 1; 0; 1; 0]%float) "serial" 1%float)).
Proof.
  split.
  - apply (completion_announced_iff_complete (H := small_arrays) slow_config None
             (Some [0; 1; 0; 1; 0]%float) "serial" 1%float).
    eexists. split; [vm_compute; reflexivity|].
    do 3 eexists. repeat split; reflexivity.
  - intros Hin.
    apply (completion_announced_iff_complete (H := small_arrays) default_config None
             (Some [0; 1; 0; 1; 0]%float) "serial" 1%float) in Hin.
    destruct Hin as (out & Hout & (f & p & rr & Hf & _)).
    vm_compute in Hout. injection Hout as <-. discriminate Hf.
Defined.

(** ** PeakDetector: a zero heart-rate ceiling *)

Lemma min_distance_samples_zero_ceiling (cfg : config) (n : Z) :
  MAX_HR_BPM_FOR_PEAK_DISTANCE cfg = 0 ->
  min_distance_samples cfg n = ([], Raise ZeroDivisionError).
Proof.
  intros Hhr. unfold min_distance_samples. rewrite Hhr, float_of_int_zero. run.
  unfold py_truediv.
  replace ((0 =? 0)%float) with true by (vm_compute; reflexivity).
  reflexivity.
Qed.

(** X15. With MAX_HR_BPM_FOR_PEAK_DISTANCE set to 0 the detector raises
    ZeroDivisionError on [60.0 / 0] for every non-empty, non-flat signal at a
    positive sampling rate: the guards before the distance computation do
    not cover the ceiling. *)
Theorem detector_zero_ceiling_raises `{SciLib} (cfg : config) (x : list float) :
  MAX_HR_BPM_FOR_PEAK_DISTANCE cfg = 0 ->
  0 < SAMPLING_RATE_HZ cfg ->
  x <> [] ->
  (Np.amax x - Np.amin x <? 0x1.0c6f7a0b5ed8dp-20)%float = false ->
  detect_r_peaks cfg (Some x) = ([], Raise ZeroDivisionError).
Proof.
  intros Hhr Hrate Hne Hflat. pose proof (len_pos_of_nonempty x Hne) as Hlen.
  unfold detect_r_peaks.
  replace (len x =? 0) with false by (symmetry; apply Z.eqb_neq; lia).
  cbv zeta. rewrite Hflat.
  replace (SAMPLING_RATE_HZ cfg <=? 0) with false by (symmetry; apply Z.leb_gt; lia).
  rewrite (min_distance_samples_zero_ceiling cfg (len x) Hhr). reflexivity.
Qed.

Lemma detector_zero_ceiling_raises_witness :
  detect_r_peaks (H := small_arrays) zero_ceiling_config (Some [0; 1; 0; 1; 0]%float)
  = ([], Raise ZeroDivisionError).
Proof.
  apply (detector_zero_ceiling_raises (H := small_arrays) zero_ceiling_config
           [0; 1; 0; 1; 0]%float).
  - reflexivity.
  - reflexivity.
  - discriminate.
  - vm_compute. reflexivity.
Defined.

(** ** PipelineOrchestrator: where the filtered signal comes from *)

Lemma butter_bandpass_filter_provenance `{SciLib} (cfg : config) (data : list float)
      (log : list message) (filtered : list float) :
  butter_bandpass_filter cfg data = (log, Return filtered) ->
  (filtered = data \/
   exists low high, butter_filtfilt (FILTER_ORDER cfg) low high data = Some filtered) /\
  (len data < FILTER_ORDER cfg * 3 -> filtered = data).
Proof.
  unfold butter_bandpass_filter.
  destruct (normalized_corners cfg) as [logc [[low high]|e]]; run;
    [|intros [= _ ?]; discriminate].
  destruct (_ || _); [intros [= _ <-]; split; [left; reflexivity | trivial]|].
  destruct (len data <? FILTER_ORDER cfg * 3) eqn:Hshort;
    [intros [= _ <-]; split; [left; reflexivity | trivial]|].
  apply Z.ltb_ge in Hshort.
  destruct (butter_filtfilt (FILTER_ORDER cfg) low high data) as [y|] eqn:Hy.
  - intros [= _ <-]. split; [right; exists low, high; exact Hy | lia].
  - intros [= _ <-]. split; [left; reflexivity | trivial].
Qed.

(** X16. The filtered signal of a complete result is either the raw buffer
    itself or what SciPy's filter made of it; when the orchestrator goes on
    with a buffer shorter than filter_order * 3 (because it is not shorter
    than sampling_rate_hz * 2), the stages run on the raw, unfiltered
    buffer. *)
Theorem pipeline_filtered_provenance `{SciLib} (cfg : config)
        (timestamps : option (list float)) (raw : list float)
        (source_identifier : string) (duration_minutes : float)
        (out : pipeline_output) (filtered : list float) :
  result (process_ecg_data cfg timestamps (Some raw)
            source_identifier duration_minutes) = Return out ->
  filtered_ecg out = Some filtered ->
  (filtered = raw \/
   exists low high, butter_filtfilt (FILTER_ORDER cfg) low high raw = Some filtered) /\
  (len raw < FILTER_ORDER cfg * 3 -> filtered = raw).
Proof.
  destruct (process_ecg_data cfg timestamps (Some raw)
              source_identifier duration_minutes) as [log r] eqn:Hrun.
  cbn [result snd]. intros -> Hf.
  destruct (process_ecg_data_returns _ _ _ _ _ _ _ Hrun)
    as [[_ ->] | (_ & raw' & log' & [= <-] & Hstages)]; [discriminate Hf|].
  destruct (run_stages_returns cfg raw log' out Hstages)
    as (logf & filtered' & logd & peaks & rr & Hbf & _ & _ & ->).
  cbn [filtered_ecg] in Hf. injection Hf as ->.
  exact (butter_bandpass_filter_provenance cfg raw logf filtered Hbf).
Qed.

Lemma pipeline_filtered_provenance_witness :
  let raw := [0; 1; 0; 1; 0]%float in
  (raw = raw \/
   exists low high,
     butter_filtfilt (SciLib := small_arrays) (FILTER_ORDER slow_config) low high raw
     = Some raw) /\
  (len raw < FILTER_ORDER slow_config * 3 -> raw = raw).
Proof.
  intros raw.
  apply (pipeline_filtered_provenance (H := small_arrays) slow_config None raw
           "serial" 1%float
           {| filtered_ecg := Some raw; r_peaks := Some [1; 3];
              rr_intervals := Some [1000%float];
              hrv_metrics := calculate_hrv_metrics (H := small_arrays)
                               (Some [1000%float]) |}
           raw).
  - vm_compute. reflexivity.
  - reflexivity.
Defined.
